(** * Todo backend: the task API of [todo_backend/src/api/main.py]

    A shallow embedding of the FastAPI application and of the SQLite table it
    keeps, followed by the properties of the service.

    - Python [str] values are lists of Unicode code points.
    - The [tasks] table is the list of its rows in rowid order together with
      the AUTOINCREMENT counter SQLite keeps in [sqlite_sequence].
    - A handler is a function from the database before the request to its
      result and the database after it; [get_conn] is the commit-or-discard
      scope around the statements of one request.
    - The reading of [datetime.utcnow()] is an input of the create request.
    - The storage engine is taken to be reliable: statements do not fail
      on their own.
    - A request body has members of the declared JSON types: a title is
      a text, [completed] a boolean, each possibly [null] or left out.
    - Integers are Python's unbounded integers. SQLite holds signed 64-bit
      integers and UTF-8 text, and the [sqlite3] binding raises on a
      parameter it cannot convert; the statements below are those of a
      task id within that range ([sqlite_integer]) and of a text made of
      Unicode scalar values ([encodable]). The properties that depend on
      it say so. *)

From Stdlib Require Import ZArith NArith List String Ascii Bool Lia.
From Stdlib Require Import Permutation Sorted.
Import ListNotations.

Open Scope Z_scope.

(* ================================================================= *)
(** ** Python strings *)

(** A [str] is a sequence of code points. *)
Definition str : Type := list N.

Module PyStr.

Definition of_string (s : string) : str :=
  map N_of_ascii (list_ascii_of_string s).

(** [len(s)] *)
Definition len (s : str) : Z := Z.of_nat (List.length s).

(** [c.isspace()]: the characters [str.strip()] removes when called
    without argument. *)
Definition isspace (c : N) : bool :=
  ((9 <=? c) && (c <=? 13)
   || (28 <=? c) && (c <=? 32)
   || (c =? 133) || (c =? 160) || (c =? 5760)
   || (8192 <=? c) && (c <=? 8202)
   || (c =? 8232) || (c =? 8233) || (c =? 8239) || (c =? 8287)
   || (c =? 12288))%N.

Fixpoint lstrip (s : str) : str :=
  match s with
  | [] => []
  | c :: t => if isspace c then lstrip t else s
  end.

Definition rstrip (s : str) : str := rev (lstrip (rev s)).

(** [s.strip()] *)
Definition strip (s : str) : str := rstrip (lstrip s).

(** Comparison of two texts code point by code point, the order of
    SQLite's default (BINARY) collation. *)
Fixpoint compare (a b : str) : comparison :=
  match a, b with
  | [], [] => Eq
  | [], _ :: _ => Lt
  | _ :: _, [] => Gt
  | x :: a', y :: b' =>
      match N.compare x y with
      | Eq => compare a' b'
      | c => c
      end
  end.

Definition ltb (a b : str) : bool :=
  match compare a b with Lt => true | _ => false end.

End PyStr.

(* ================================================================= *)
(** ** [datetime] and the two renderings of a timestamp *)

Record datetime : Type := mkDatetime {
  year : N; month : N; day : N;
  hour : N; minute : N; second : N;
  microsecond : N
}.

(** The [w] low-order decimal digits of [n], most significant first: the
    zero-padded fields of [isoformat()]. *)
Fixpoint digits (w : nat) (n : N) : str :=
  match w with
  | O => []
  | S w' => digits w' (n / 10)%N ++ [(48 + n mod 10)%N]
  end.

(** [datetime.isoformat()] of a naive datetime:
    [YYYY-MM-DDTHH:MM:SS], followed by [.ffffff] when the microsecond
    field is not zero. *)
Definition isoformat (d : datetime) : str :=
  digits 4 (year d) ++ PyStr.of_string "-" ++
  digits 2 (month d) ++ PyStr.of_string "-" ++
  digits 2 (day d) ++ PyStr.of_string "T" ++
  digits 2 (hour d) ++ PyStr.of_string ":" ++
  digits 2 (minute d) ++ PyStr.of_string ":" ++
  digits 2 (second d) ++
  (if (microsecond d =? 0)%N then []
   else PyStr.of_string "." ++ digits 6 (microsecond d)).

(** [x] begins with [p]. *)
Fixpoint starts_with (p x : str) : bool :=
  match p, x with
  | [], _ => true
  | _ :: _, [] => false
  | c :: p', d :: x' => (c =? d)%N && starts_with p' x'
  end.

(** The texts of the last half millisecond of the year 9999,
    [9999-12-31T23:59:59.9995] and later: rounded to the millisecond,
    the instant is past the last one SQLite's date functions hold. *)
Definition past_last_millisecond (x : str) : bool :=
  starts_with (PyStr.of_string "9999-12-31T23:59:59.") x
  && negb (PyStr.ltb (skipn 20 x) (PyStr.of_string "9995")).

(** SQL [datetime(x)] on a text of the shape [isoformat] produces: the
    date and the time of day to the whole second, [YYYY-MM-DD HH:MM:SS].
    The fraction of a second is not part of the result. On a text of
    the last half millisecond of the year 9999 the result is NULL, which
    sorts below every text: it is the empty text here, which sorts below
    every key. *)
Definition sql_datetime (x : str) : str :=
  if past_last_millisecond x then []
  else firstn 10 x ++ PyStr.of_string " " ++ firstn 8 (skipn 11 x).

(* ================================================================= *)
(** ** Exceptions and results *)

Inductive exn : Type :=
| HTTPException (status_code : Z) (detail : string)
| TypeError.

Inductive result (A : Type) : Type :=
| Ok (a : A)
| Raise (e : exn).
Arguments Ok {A} a.
Arguments Raise {A} e.

(* ================================================================= *)
(** ** Pydantic models *)

(** A member of a JSON request body: absent, [null], or a value. *)
Inductive field (A : Type) : Type :=
| Absent
| Null
| Value (a : A).
Arguments Absent {A}.
Arguments Null {A}.
Arguments Value {A} a.

Module TaskCreate.
(** [title: str], [completed: Optional[bool]] *)
Record t : Type := mk { title : str; completed : option bool }.
End TaskCreate.

Module TaskUpdate.
(** [title: Optional[str]], [completed: Optional[bool]] *)
Record t : Type := mk { title : option str; completed : option bool }.
End TaskUpdate.

Module Task.
Record t : Type := mk {
  id : Z; title : str; completed : bool; created_at : str
}.
End Task.

(** [Field(min_length=1, max_length=255)] on a [str]: the length of the
    value as it was sent. *)
Definition title_length_ok (s : str) : bool :=
  (1 <=? PyStr.len s) && (PyStr.len s <=? 255).

(** Parsing of the body of [POST /tasks] into [TaskCreate]; [None] is a
    validation error (422). [title] is required and is not [Optional];
    [completed] defaults to [False] when absent. The members have their
    declared JSON types: a [completed] that is not a boolean is not a
    body of this type. *)
Definition parse_TaskCreate (title : field str) (completed : field bool)
  : option TaskCreate.t :=
  match title with
  | Value s =>
      if title_length_ok s then
        Some (TaskCreate.mk s
                (match completed with
                 | Absent => Some false
                 | Null => None
                 | Value b => Some b
                 end))
      else None
  | _ => None
  end.

(** Parsing of the body of [PUT /tasks/{task_id}] into [TaskUpdate]; both
    members default to [None]. As for [TaskCreate], the members have
    their declared JSON types. *)
Definition parse_TaskUpdate (title : field str) (completed : field bool)
  : option TaskUpdate.t :=
  let c := match completed with Value b => Some b | _ => None end in
  match title with
  | Value s =>
      if title_length_ok s then Some (TaskUpdate.mk (Some s) c) else None
  | _ => Some (TaskUpdate.mk None c)
  end.

(** Truth value of an [Optional[bool]], as in [1 if payload.completed else 0]. *)
Definition truthy (o : option bool) : bool :=
  match o with Some true => true | _ => false end.

(* ================================================================= *)
(** ** The [tasks] table *)

Module Row.
(** [id INTEGER PRIMARY KEY AUTOINCREMENT, title TEXT NOT NULL,
     completed INTEGER NOT NULL DEFAULT 0, created_at TEXT NOT NULL] *)
Record t : Type := mk {
  id : Z; title : str; completed : Z; created_at : str
}.
End Row.

(** The table in rowid order, and the largest rowid ever handed out. *)
Record Db : Type := mkDb {
  tasks : list Row.t;
  sqlite_sequence : Z
}.

(** The table right after its creation. *)
Definition empty_db : Db := mkDb [] 0.

(** [init_db]: [CREATE TABLE IF NOT EXISTS tasks (...)] on a database file
    that holds the table already ([Some]) or does not ([None]). *)
Definition init_db (file : option Db) : Db :=
  match file with
  | Some db => db
  | None => empty_db
  end.

Definition max_rowid (rows : list Row.t) : Z :=
  fold_right (fun r m => Z.max (Row.id r) m) 0 rows.

(** [INSERT INTO tasks (title, completed, created_at) VALUES (?, ?, ?)];
    returns [cur.lastrowid]. AUTOINCREMENT: one more than the largest
    rowid that ever existed in the table. *)
Definition next_rowid (db : Db) : Z :=
  Z.max (max_rowid (tasks db)) (sqlite_sequence db) + 1.

Definition sql_insert (title : str) (completed : Z) (created_at : str)
  (db : Db) : Z * Db :=
  let rowid := next_rowid db in
  (rowid,
   mkDb (tasks db ++ [Row.mk rowid title completed created_at]) rowid).

(** [SELECT id, title, completed, created_at FROM tasks WHERE id = ?]
    followed by [fetchone()]. *)
Definition sql_select_by_id (task_id : Z) (db : Db) : option Row.t :=
  find (fun r => Row.id r =? task_id) (tasks db).

(** One [column = ?] of the [SET] clause with the value bound to it. *)
Inductive assignment : Type :=
| SetTitle (v : str)
| SetCompleted (v : Z).

Definition assign (r : Row.t) (a : assignment) : Row.t :=
  match a with
  | SetTitle v => Row.mk (Row.id r) v (Row.completed r) (Row.created_at r)
  | SetCompleted v => Row.mk (Row.id r) (Row.title r) v (Row.created_at r)
  end.

(** [UPDATE tasks SET ... WHERE id = ?] *)
Definition sql_update (sets : list assignment) (task_id : Z) (db : Db) : Db :=
  mkDb (map (fun r => if Row.id r =? task_id then fold_left assign sets r
                      else r) (tasks db))
       (sqlite_sequence db).

(** [DELETE FROM tasks WHERE id = ?]; returns [rowcount]. *)
Definition sql_delete (task_id : Z) (db : Db) : Z * Db :=
  (Z.of_nat (List.length (filter (fun r => Row.id r =? task_id) (tasks db))),
   mkDb (filter (fun r => negb (Row.id r =? task_id)) (tasks db))
        (sqlite_sequence db)).

(** The sort key of [ORDER BY datetime(created_at) DESC]. *)
Definition order_key (r : Row.t) : str := sql_datetime (Row.created_at r).

(** Insertion into a list sorted by descending key: the row goes before
    the first row whose key is not greater than its own. *)
Fixpoint insert_desc (r : Row.t) (l : list Row.t) : list Row.t :=
  match l with
  | [] => [r]
  | x :: l' =>
      if PyStr.ltb (order_key r) (order_key x) then x :: insert_desc r l'
      else r :: l
  end.

(** [SELECT ... FROM tasks ORDER BY datetime(created_at) DESC] followed by
    [fetchall()]: the rows are scanned in rowid order and sorted on the
    key; rows with equal keys stay in scan order. *)
Definition sql_select_all (db : Db) : list Row.t :=
  fold_right insert_desc [] (tasks db).

(* ================================================================= *)
(** ** Connections *)

(** Statements run against the open connection: they read and change the
    uncommitted state and may raise. *)
Definition conn (A : Type) : Type := Db -> result A * Db.

Definition ret {A} (a : A) : conn A := fun db => (Ok a, db).

Definition raise {A} (e : exn) : conn A := fun db => (Raise e, db).

Definition bind {A B} (m : conn A) (k : A -> conn B) : conn B :=
  fun db =>
    match m db with
    | (Ok a, db') => k a db'
    | (Raise e, db') => (Raise e, db')
    end.

Notation "x <- m ;; k" := (bind m (fun x => k))
  (at level 61, m at next level, right associativity).
Notation "m ;;; k" := (bind m (fun _ => k))
  (at level 61, right associativity).

(** [conn.execute(...)] for each statement of the application, with
    parameters SQLite can hold: [task_id] a signed 64-bit integer, the
    texts made of Unicode scalar values. *)
Definition execute_insert (title : str) (completed : Z) (created_at : str)
  : conn Z :=
  fun db => let (rowid, db') := sql_insert title completed created_at db in
            (Ok rowid, db').

Definition execute_select_by_id (task_id : Z) : conn (option Row.t) :=
  fun db => (Ok (sql_select_by_id task_id db), db).

Definition execute_select_all : conn (list Row.t) :=
  fun db => (Ok (sql_select_all db), db).

Definition execute_update (sets : list assignment) (task_id : Z) : conn unit :=
  fun db => (Ok tt, sql_update sets task_id db).

Definition execute_delete (task_id : Z) : conn Z :=
  fun db => let (rowcount, db') := sql_delete task_id db in
            (Ok rowcount, db').

(** [with get_conn() as conn: body]: the body runs on a connection opened
    on the committed database; [conn.commit()] is reached only when the
    body finishes without raising, otherwise the connection is closed with
    its changes uncommitted. *)
Definition get_conn {A} (body : conn A) : conn A :=
  fun db =>
    match body db with
    | (Ok a, db') => (Ok a, db')
    | (Raise e, _) => (Raise e, db)
    end.

(** [bool(x)] of an integer. *)
Definition bool_of_int (x : Z) : bool := negb (x =? 0).

Definition row_to_task (row : Row.t) : Task.t :=
  Task.mk (Row.id row) (Row.title row)
          (bool_of_int (Row.completed row))
          (Row.created_at row).

(** [return row_to_task(row)] on the outcome of [fetchone()]: subscripting
    [None] (no row fetched) is a [TypeError]. *)
Definition return_row_to_task (row : option Row.t) : conn Task.t :=
  match row with
  | Some r => ret (row_to_task r)
  | None => raise TypeError
  end.

(** The [try: ... except HTTPException: raise / except Exception as exc:
    raise HTTPException(status_code=500, ...)] around every handler. The
    detail is the fixed part of the message, without the text of [exc]. *)
Definition try_except {A} (body : conn A) : conn A :=
  fun db =>
    match body db with
    | (Raise TypeError, db') =>
        (Raise (HTTPException 500 "Internal server error"), db')
    | r => r
    end.

(* ================================================================= *)
(** ** Handlers *)

Definition health_check : conn unit := try_except (ret tt).

Definition list_tasks : conn (list Task.t) :=
  try_except
    (get_conn
       (rows <- execute_select_all ;;
        ret (map row_to_task rows))).

Definition create_task (payload : TaskCreate.t) (utcnow : datetime)
  : conn Task.t :=
  try_except
    (let created_at := isoformat utcnow in
     get_conn
       (task_id <- execute_insert
                     (PyStr.strip (TaskCreate.title payload))
                     (if truthy (TaskCreate.completed payload) then 1 else 0)
                     created_at ;;
        row <- execute_select_by_id task_id ;;
        return_row_to_task row)).

(** The dynamic [SET] clause of [update_task]: [sets] with [values]. *)
Definition update_sets (payload : TaskUpdate.t) : list assignment :=
  match TaskUpdate.title payload with
  | Some v => [SetTitle (PyStr.strip v)]
  | None => []
  end ++
  match TaskUpdate.completed payload with
  | Some v => [SetCompleted (if v then 1 else 0)]
  | None => []
  end.

Definition update_task (payload : TaskUpdate.t) (task_id : Z) : conn Task.t :=
  try_except
    (match TaskUpdate.title payload, TaskUpdate.completed payload with
     | None, None =>
         raise (HTTPException 400 "No fields provided to update")
     | _, _ =>
         get_conn
           (existing <- execute_select_by_id task_id ;;
            match existing with
            | None => raise (HTTPException 404 "Task not found")
            | Some _ =>
                execute_update (update_sets payload) task_id ;;;
                row <- execute_select_by_id task_id ;;
                return_row_to_task row
            end)
     end).

Definition toggle_task (task_id : Z) : conn Task.t :=
  try_except
    (get_conn
       (row <- execute_select_by_id task_id ;;
        match row with
        | None => raise (HTTPException 404 "Task not found")
        | Some r =>
            let new_completed :=
              if bool_of_int (Row.completed r) then 0 else 1 in
            execute_update [SetCompleted new_completed] task_id ;;;
            row <- execute_select_by_id task_id ;;
            return_row_to_task row
        end)).

Definition delete_task (task_id : Z) : conn unit :=
  try_except
    (get_conn
       (rowcount <- execute_delete task_id ;;
        if rowcount =? 0 then raise (HTTPException 404 "Task not found")
        else ret tt)).

(* ================================================================= *)
(** ** The HTTP surface *)

Inductive request : Type :=
| GET_health
| GET_tasks
| POST_tasks (utcnow : datetime) (title : field str) (completed : field bool)
| PUT_tasks_id (task_id : Z) (title : field str) (completed : field bool)
| PATCH_tasks_id_toggle (task_id : Z)
| DELETE_tasks_id (task_id : Z).

Inductive content : Type :=
| Status_ok
| One (t : Task.t)
| Many (ts : list Task.t)
| Empty
| Detail (msg : string).

Record response : Type := mkResponse { status : Z; body : content }.

(** The response FastAPI sends for the outcome of a handler declared with
    [status_code=code]. *)
Definition respond {A} (code : Z) (render : A -> content) (r : result A)
  : response :=
  match r with
  | Ok a => mkResponse code (render a)
  | Raise (HTTPException c d) => mkResponse c (Detail d)
  | Raise TypeError => mkResponse 500 (Detail "Internal Server Error")
  end.

(** The answer to a body that fails validation. Its detail lists the
    violated constraints; it is kept as one fixed message here. *)
Definition unprocessable : response :=
  mkResponse 422 (Detail "validation error").

Definition serve {A} (code : Z) (render : A -> content) (h : conn A)
  (db : Db) : response * Db :=
  let (r, db') := h db in (respond code render r, db').

(** One request against the committed database. The body of a request is
    validated before its handler is called. *)
Definition handle (rq : request) (db : Db) : response * Db :=
  match rq with
  | GET_health => serve 200 (fun _ => Status_ok) health_check db
  | GET_tasks => serve 200 Many list_tasks db
  | POST_tasks utcnow title completed =>
      match parse_TaskCreate title completed with
      | Some payload => serve 201 One (create_task payload utcnow) db
      | None => (unprocessable, db)
      end
  | PUT_tasks_id task_id title completed =>
      match parse_TaskUpdate title completed with
      | Some payload => serve 200 One (update_task payload task_id) db
      | None => (unprocessable, db)
      end
  | PATCH_tasks_id_toggle task_id => serve 200 One (toggle_task task_id) db
  | DELETE_tasks_id task_id =>
      serve 204 (fun _ => Empty) (delete_task task_id) db
  end.

(** A sequence of requests, served one after the other. *)
Fixpoint run (rqs : list request) (db : Db) : Db :=
  match rqs with
  | [] => db
  | rq :: rest => run rest (snd (handle rq db))
  end.

(** The databases the service can be in: those of a fresh table after any
    sequence of requests. *)
Definition reachable (db : Db) : Prop :=
  exists rqs, db = run rqs (init_db None).

(* ================================================================= *)
(** ** Invariants of the table *)

Definition ids (db : Db) : list Z := map Row.id (tasks db).

Definition completed_is_0_or_1 (r : Row.t) : Prop :=
  Row.completed r = 0 \/ Row.completed r = 1.

(** Primary key: no two rows share an id; AUTOINCREMENT: every id in the
    table was handed out, so it is at most the counter; every [completed]
    column holds 0 or 1. *)
Record wf (db : Db) : Prop := mk_wf {
  wf_unique : NoDup (ids db);
  wf_issued : Forall (fun i => 1 <= i <= sqlite_sequence db) (ids db);
  wf_completed : Forall completed_is_0_or_1 (tasks db)
}.

(** The tasks a response carries. *)
Definition tasks_of (c : content) : list Task.t :=
  match c with
  | One t => [t]
  | Many ts => ts
  | _ => []
  end.

(* ================================================================= *)
(** ** Vocabulary of the statements *)

(** [HTTPException(status_code=404, detail="Task not found")] *)
Definition not_found : exn := HTTPException 404 "Task not found".

(** The row [create_task] inserts. *)
Definition created_row (payload : TaskCreate.t) (utcnow : datetime) (db : Db)
  : Row.t :=
  Row.mk (next_rowid db)
         (PyStr.strip (TaskCreate.title payload))
         (if truthy (TaskCreate.completed payload) then 1 else 0)
         (isoformat utcnow).

(** The row [toggle_task] leaves in place of [r]. *)
Definition toggled (r : Row.t) : Row.t :=
  assign r (SetCompleted (if bool_of_int (Row.completed r) then 0 else 1)).

(** An update payload that provides at least one of its two members. *)
Definition has_field (payload : TaskUpdate.t) : Prop :=
  TaskUpdate.title payload <> None \/ TaskUpdate.completed payload <> None.

(** An assignment that leaves 0 or 1 in [completed], if it writes it. *)
Definition writes_0_or_1 (a : assignment) : Prop :=
  match a with
  | SetTitle _ => True
  | SetCompleted v => v = 0 \/ v = 1
  end.

(** What one request can do to the committed database. *)
Inductive effect (db : Db) : Db -> Prop :=
| Unchanged : effect db db
| Inserted title completed created_at :
    completed = 0 \/ completed = 1 ->
    effect db (snd (sql_insert title completed created_at db))
| Updated sets task_id :
    Forall writes_0_or_1 sets ->
    effect db (sql_update sets task_id db)
| Deleted task_id :
    effect db (snd (sql_delete task_id db)).

(** [a] may stand right before [b] in the listing: the second of [a] is
    not earlier than the second of [b]. *)
Definition not_before (a b : Row.t) : Prop :=
  PyStr.ltb (order_key a) (order_key b) = false.

(** The three operations that address a task all answer 404 and leave the
    database as it was; for the update, whenever its body is accepted and
    provides a member. *)
Definition answers_not_found (task_id : Z) (db : Db) : Prop :=
  handle (PATCH_tasks_id_toggle task_id) db =
    (mkResponse 404 (Detail "Task not found"), db)
  /\ handle (DELETE_tasks_id task_id) db =
    (mkResponse 404 (Detail "Task not found"), db)
  /\ forall title completed payload,
      parse_TaskUpdate title completed = Some payload ->
      has_field payload ->
      handle (PUT_tasks_id task_id title completed) db =
      (mkResponse 404 (Detail "Task not found"), db).

(** The [completed] member of a create request as the created task
    shows it. *)
Definition requested_completed (completed : field bool) : bool :=
  match completed with
  | Value b => b
  | _ => false
  end.

(** A member that carries no value: left out, or [null]. *)
Definition not_provided {A} (f : field A) : Prop := f = Absent \/ f = Null.

(** How an update or a toggle of [task_id] may relate a row before to the
    row after: same [id], same [created_at], and the same row altogether
    unless it is the addressed one. *)
Definition only_title_and_completed_change (task_id : Z) (r r' : Row.t)
  : Prop :=
  Row.id r' = Row.id r
  /\ Row.created_at r' = Row.created_at r
  /\ (Row.id r <> task_id -> r' = r).

(** The requests that update or toggle [task_id]. *)
Definition modifies (task_id : Z) (rq : request) : Prop :=
  rq = PATCH_tasks_id_toggle task_id
  \/ exists title completed, rq = PUT_tasks_id task_id title completed.

(** ** Sample inputs *)

(** Two instants of the same second, a tenth of a second apart. *)
Definition noon_and_one_tenth : datetime := mkDatetime 2024 1 1 12 0 0 100000.
Definition noon_and_two_tenths : datetime := mkDatetime 2024 1 1 12 0 0 200000.

(** Three spaces. *)
Definition blank_title : str := PyStr.of_string "   ".

(** The letter [a] followed by 255 spaces: 256 characters, one after
    trimming. *)
Definition padded_title : str := PyStr.of_string "a" ++ repeat 32%N 255.

Definition buy_milk : str := PyStr.of_string "Buy milk".

(** The database after [POST /tasks {"title": "Buy milk"}] on a fresh
    table. *)
Definition one_task_db : Db :=
  run [POST_tasks noon_and_one_tenth (Value buy_milk) Absent] (init_db None).

(* ================================================================= *)
(** ** Vocabulary of the further properties *)

(** The tasks [GET /tasks] answers with. *)
Definition listing (db : Db) : list Task.t :=
  map row_to_task (sql_select_all db).

(** The sort of [sql_select_all] on the rows themselves. *)
Definition sort_rows (rows : list Row.t) : list Row.t :=
  fold_right insert_desc [] rows.

(** The status of an update or a toggle once its body is accepted and
    provides a member: decided by the lookup of the id. *)
Definition lookup_status (task_id : Z) (db : Db) : Z :=
  match sql_select_by_id task_id db with
  | Some _ => 200
  | None => 404
  end.

(** A text that [strip()] leaves as it is. *)
Definition trimmed (s : str) : Prop := PyStr.strip s = s.

(** What holds of every row the handlers write. *)
Definition stored_row_ok (r : Row.t) : Prop :=
  trimmed (Row.title r)
  /\ PyStr.len (Row.title r) <= 255
  /\ (List.length (Row.created_at r) = 19%nat
      \/ List.length (Row.created_at r) = 26%nat).

(** A create request whose body passes validation. *)
Definition accepted_create (rq : request) : bool :=
  match rq with
  | POST_tasks _ title completed =>
      match parse_TaskCreate title completed with
      | Some _ => true
      | None => false
      end
  | _ => false
  end.




(** The integers SQLite holds, and the [sqlite3] binding converts. *)
Definition sqlite_integer (i : Z) : Prop := - 2 ^ 63 <= i < 2 ^ 63.

(** A Unicode scalar value: a code point that is not a surrogate. *)
Definition scalar_value (c : N) : bool :=
  ((c <? 55296) || (57343 <? c) && (c <? 1114112))%N.

(** A text UTF-8 can encode, as SQLite stores it. *)
Definition encodable (s : str) : Prop := forallb scalar_value s = true.

Definition encodable_member (f : field str) : Prop :=
  match f with
  | Value s => encodable s
  | _ => True
  end.

(** The requests whose parameters SQLite can hold. *)
Definition storable (rq : request) : Prop :=
  match rq with
  | GET_health | GET_tasks => True
  | POST_tasks _ title _ => encodable_member title
  | PUT_tasks_id task_id title _ =>
      sqlite_integer task_id /\ encodable_member title
  | PATCH_tasks_id_toggle task_id => sqlite_integer task_id
  | DELETE_tasks_id task_id => sqlite_integer task_id
  end.



(** The table is in increasing order of id, and the counter bounds the
    ids. *)
Definition in_id_order (db : Db) : Prop :=
  StronglySorted Z.lt (ids db)
  /\ Forall (fun i => 1 <= i <= sqlite_sequence db) (ids db)
  /\ 0 <= sqlite_sequence db.

(** One second after [noon_and_one_tenth], to the second. *)
Definition one_second_after_noon : datetime := mkDatetime 2024 1 1 12 0 1 0.

(** How an update or a toggle of [task_id] may relate an entry of the
    listing before to the entry at the same place after. *)
Definition same_place (task_id : Z) (t t' : Task.t) : Prop :=
  Task.id t' = Task.id t
  /\ Task.created_at t' = Task.created_at t
  /\ (Task.id t <> task_id -> t' = t).

(** The id in the path of a request, if it has one. *)
Definition path_id (rq : request) : option Z :=
  match rq with
  | PUT_tasks_id task_id _ _ => Some task_id
  | PATCH_tasks_id_toggle task_id => Some task_id
  | DELETE_tasks_id task_id => Some task_id
  | _ => None
  end.

(* ================================================================= *)
(** * Properties *)

(** ** Storage statements *)

Section Storage.

Implicit Types (rows : list Row.t) (r : Row.t) (i : Z) (db : Db).

Lemma max_rowid_nonneg rows : 0 <= max_rowid rows.
Proof. induction rows as [|x l IH]; simpl; lia. Qed.

Lemma max_rowid_ge rows r : In r rows -> Row.id r <= max_rowid rows.
Proof.
  induction rows as [|x l IH]; simpl; [tauto|].
  intros [->|H]; [lia|]. specialize (IH H). lia.
Qed.

Lemma next_rowid_fresh db r : In r (tasks db) -> Row.id r < next_rowid db.
Proof.
  intros H. apply max_rowid_ge in H. unfold next_rowid. lia.
Qed.

Lemma next_rowid_positive db : 1 <= next_rowid db.
Proof.
  unfold next_rowid. pose proof (max_rowid_nonneg (tasks db)). lia.
Qed.

Lemma next_rowid_above_sequence db : sqlite_sequence db < next_rowid db.
Proof. unfold next_rowid. lia. Qed.

Lemma find_none_iff rows i :
  find (fun r => Row.id r =? i) rows = None <-> ~ In i (map Row.id rows).
Proof.
  induction rows as [|x l IH]; simpl; [tauto|].
  destruct (Z.eqb_spec (Row.id x) i) as [E|E].
  - split; [discriminate|]. intros H. exfalso. apply H. now left.
  - rewrite IH. split; [intros H [?|?]; tauto | tauto].
Qed.

Lemma find_some_id rows i r :
  find (fun r => Row.id r =? i) rows = Some r -> In r rows /\ Row.id r = i.
Proof.
  intros H. apply find_some in H. destruct H as [H1 H2].
  split; [assumption|]. now apply Z.eqb_eq.
Qed.

Lemma select_by_id_in db i r :
  sql_select_by_id i db = Some r -> In r (tasks db) /\ Row.id r = i.
Proof. apply find_some_id. Qed.

Lemma select_by_id_none db i :
  sql_select_by_id i db = None <-> ~ In i (ids db).
Proof. apply find_none_iff. Qed.

(** A row appended under a fresh id is the one a lookup of that id finds. *)
Lemma find_app_fresh rows x :
  (forall r, In r rows -> Row.id r <> Row.id x) ->
  find (fun r => Row.id r =? Row.id x) (rows ++ [x]) = Some x.
Proof.
  induction rows as [|y l IH]; simpl; intros H.
  - now rewrite Z.eqb_refl.
  - destruct (Z.eqb_spec (Row.id y) (Row.id x)) as [E|E].
    + exfalso. apply (H y); auto.
    + apply IH. intros r Hr. apply H. now right.
Qed.

Lemma assign_id r a : Row.id (assign r a) = Row.id r.
Proof. now destruct a. Qed.

Lemma assign_created_at r a : Row.created_at (assign r a) = Row.created_at r.
Proof. now destruct a. Qed.

Lemma assigns_id sets r : Row.id (fold_left assign sets r) = Row.id r.
Proof.
  revert r. induction sets as [|a l IH]; intros r; simpl; [reflexivity|].
  now rewrite IH, assign_id.
Qed.

Lemma assigns_created_at sets r :
  Row.created_at (fold_left assign sets r) = Row.created_at r.
Proof.
  revert r. induction sets as [|a l IH]; intros r; simpl; [reflexivity|].
  now rewrite IH, assign_created_at.
Qed.

(** After an [UPDATE], a lookup finds the updated version of the row it
    found before. *)
Lemma select_after_update sets i j db :
  sql_select_by_id j (sql_update sets i db) =
  option_map (fun r => if Row.id r =? i then fold_left assign sets r else r)
             (sql_select_by_id j db).
Proof.
  unfold sql_select_by_id, sql_update; simpl.
  induction (tasks db) as [|x l IH]; simpl; [reflexivity|].
  assert (E : Row.id (if Row.id x =? i then fold_left assign sets x else x)
              = Row.id x).
  { destruct (Row.id x =? i); [apply assigns_id | reflexivity]. }
  rewrite E. destruct (Row.id x =? j); [reflexivity | exact IH].
Qed.

Lemma update_ids sets i db : ids (sql_update sets i db) = ids db.
Proof.
  unfold ids, sql_update; simpl. rewrite map_map. apply map_ext.
  intros r. destruct (Row.id r =? i); [apply assigns_id | reflexivity].
Qed.

Lemma delete_rowcount_zero i db :
  fst (sql_delete i db) = 0 <-> sql_select_by_id i db = None.
Proof.
  unfold sql_delete, sql_select_by_id; simpl.
  induction (tasks db) as [|x l IH]; simpl; [tauto|].
  destruct (Row.id x =? i); simpl; [|exact IH].
  split; [lia | discriminate].
Qed.

Lemma delete_ids i db :
  ids (snd (sql_delete i db)) = filter (fun j => negb (j =? i)) (ids db).
Proof.
  unfold ids, sql_delete; simpl.
  induction (tasks db) as [|x l IH]; simpl; [reflexivity|].
  destruct (Row.id x =? i); simpl; [exact IH | now rewrite IH].
Qed.

Lemma select_after_delete i db : sql_select_by_id i (snd (sql_delete i db)) = None.
Proof.
  apply select_by_id_none. rewrite delete_ids, filter_In.
  intros [_ H]. now rewrite Z.eqb_refl in H.
Qed.

End Storage.

(** ** What each handler computes *)

Section Handlers.

Implicit Types (db : Db) (task_id : Z).

Lemma create_task_eq payload utcnow db :
  create_task payload utcnow db =
  (Ok (row_to_task (created_row payload utcnow db)),
   mkDb (tasks db ++ [created_row payload utcnow db]) (next_rowid db)).
Proof.
  unfold create_task, try_except, get_conn, bind, execute_insert,
    execute_select_by_id, sql_insert, sql_select_by_id; simpl.
  fold (created_row payload utcnow db).
  change (next_rowid db) with (Row.id (created_row payload utcnow db)) at 1.
  rewrite find_app_fresh.
  - reflexivity.
  - intros r Hr. apply next_rowid_fresh in Hr. simpl. lia.
Qed.

Lemma update_task_no_fields task_id db :
  update_task (TaskUpdate.mk None None) task_id db =
  (Raise (HTTPException 400 "No fields provided to update"), db).
Proof. reflexivity. Qed.

Lemma update_task_eq payload task_id db :
  has_field payload ->
  update_task payload task_id db =
  match sql_select_by_id task_id db with
  | None => (Raise not_found, db)
  | Some r =>
      (Ok (row_to_task (fold_left assign (update_sets payload) r)),
       sql_update (update_sets payload) task_id db)
  end.
Proof.
  intros Hf.
  assert (E : update_task payload task_id db =
              try_except (get_conn
                (existing <- execute_select_by_id task_id ;;
                 match existing with
                 | None => raise not_found
                 | Some _ =>
                     execute_update (update_sets payload) task_id ;;;
                     row <- execute_select_by_id task_id ;;
                     return_row_to_task row
                 end)) db).
  { unfold update_task, has_field in *.
    destruct payload as [[t|] [c|]]; simpl in *; try reflexivity.
    destruct Hf; congruence. }
  rewrite E. clear E.
  unfold try_except, get_conn, bind, execute_select_by_id, execute_update.
  destruct (sql_select_by_id task_id db) as [r|] eqn:Hsel; [|reflexivity].
  rewrite select_after_update, Hsel. simpl.
  apply select_by_id_in in Hsel. destruct Hsel as [_ Hid].
  rewrite <- Hid, Z.eqb_refl. reflexivity.
Qed.

Lemma toggle_task_eq task_id db :
  toggle_task task_id db =
  match sql_select_by_id task_id db with
  | None => (Raise not_found, db)
  | Some r =>
      (Ok (row_to_task (toggled r)),
       sql_update
         [SetCompleted (if bool_of_int (Row.completed r) then 0 else 1)]
         task_id db)
  end.
Proof.
  unfold toggle_task, try_except, get_conn, bind, execute_select_by_id,
    execute_update.
  destruct (sql_select_by_id task_id db) as [r|] eqn:Hsel; [|reflexivity].
  rewrite select_after_update, Hsel. simpl.
  apply select_by_id_in in Hsel. destruct Hsel as [_ Hid].
  rewrite <- Hid, Z.eqb_refl. reflexivity.
Qed.

Lemma delete_task_eq task_id db :
  delete_task task_id db =
  match sql_select_by_id task_id db with
  | None => (Raise not_found, db)
  | Some _ => (Ok tt, snd (sql_delete task_id db))
  end.
Proof.
  unfold delete_task, try_except, get_conn, bind, execute_delete.
  pose proof (delete_rowcount_zero task_id db) as Hz.
  destruct (sql_delete task_id db) as [n db'] eqn:Hdel. simpl in *.
  destruct (sql_select_by_id task_id db) as [r|].
  - destruct (Z.eqb_spec n 0) as [E|E]; [|reflexivity].
    apply Hz in E. discriminate.
  - destruct Hz as [_ Hz]. rewrite (Hz eq_refl). reflexivity.
Qed.

Lemma list_tasks_eq db :
  list_tasks db = (Ok (map row_to_task (sql_select_all db)), db).
Proof. reflexivity. Qed.

End Handlers.

(** ** What each request does *)

Section Requests.

Implicit Types (db : Db) (task_id : Z) (rq : request).

Lemma handle_POST utcnow title completed payload db :
  parse_TaskCreate title completed = Some payload ->
  handle (POST_tasks utcnow title completed) db =
  (mkResponse 201 (One (row_to_task (created_row payload utcnow db))),
   mkDb (tasks db ++ [created_row payload utcnow db]) (next_rowid db)).
Proof.
  intros Hp. unfold handle, serve. now rewrite Hp, create_task_eq.
Qed.

Lemma handle_PUT task_id title completed payload db :
  parse_TaskUpdate title completed = Some payload ->
  has_field payload ->
  handle (PUT_tasks_id task_id title completed) db =
  match sql_select_by_id task_id db with
  | None => (mkResponse 404 (Detail "Task not found"), db)
  | Some r =>
      (mkResponse 200
         (One (row_to_task (fold_left assign (update_sets payload) r))),
       sql_update (update_sets payload) task_id db)
  end.
Proof.
  intros Hp Hf. unfold handle, serve.
  rewrite Hp, update_task_eq by assumption.
  now destruct (sql_select_by_id task_id db).
Qed.

Lemma handle_PUT_no_fields task_id title completed db :
  parse_TaskUpdate title completed = Some (TaskUpdate.mk None None) ->
  handle (PUT_tasks_id task_id title completed) db =
  (mkResponse 400 (Detail "No fields provided to update"), db).
Proof. intros Hp. unfold handle, serve. now rewrite Hp. Qed.

Lemma handle_PATCH task_id db :
  handle (PATCH_tasks_id_toggle task_id) db =
  match sql_select_by_id task_id db with
  | None => (mkResponse 404 (Detail "Task not found"), db)
  | Some r =>
      (mkResponse 200 (One (row_to_task (toggled r))),
       sql_update
         [SetCompleted (if bool_of_int (Row.completed r) then 0 else 1)]
         task_id db)
  end.
Proof.
  unfold handle, serve. rewrite toggle_task_eq.
  now destruct (sql_select_by_id task_id db).
Qed.

Lemma handle_DELETE task_id db :
  handle (DELETE_tasks_id task_id) db =
  match sql_select_by_id task_id db with
  | None => (mkResponse 404 (Detail "Task not found"), db)
  | Some _ => (mkResponse 204 Empty, snd (sql_delete task_id db))
  end.
Proof.
  unfold handle, serve. rewrite delete_task_eq.
  now destruct (sql_select_by_id task_id db).
Qed.

Lemma payload_cases (payload : TaskUpdate.t) :
  payload = TaskUpdate.mk None None \/ has_field payload.
Proof.
  destruct payload as [[t|] [c|]]; unfold has_field; simpl;
    solve [now left | right; left; discriminate | right; right; discriminate].
Qed.

Lemma update_sets_write_0_or_1 payload :
  Forall writes_0_or_1 (update_sets payload).
Proof.
  unfold update_sets.
  destruct payload as [[t|] [[|]|]]; simpl;
    repeat (apply Forall_cons || apply Forall_nil); simpl; auto.
Qed.

(** Every request is one of the four effects on the database. *)
Lemma handle_effect rq db : effect db (snd (handle rq db)).
Proof.
  destruct rq as [| |utcnow title completed|task_id title completed
                  |task_id|task_id].
  - apply Unchanged.
  - apply Unchanged.
  - destruct (parse_TaskCreate title completed) as [payload|] eqn:Hp.
    + rewrite (handle_POST _ _ _ _ _ Hp). simpl.
      apply (Inserted db (PyStr.strip (TaskCreate.title payload))
               (if truthy (TaskCreate.completed payload) then 1 else 0)
               (isoformat utcnow)).
      destruct (truthy _); auto.
    + simpl. rewrite Hp. apply Unchanged.
  - destruct (parse_TaskUpdate title completed) as [payload|] eqn:Hp.
    + destruct (payload_cases payload) as [->|Hf].
      * rewrite (handle_PUT_no_fields _ _ _ _ Hp). apply Unchanged.
      * rewrite (handle_PUT _ _ _ _ _ Hp Hf).
        destruct (sql_select_by_id task_id db); simpl.
        -- apply Updated, update_sets_write_0_or_1.
        -- apply Unchanged.
    + simpl. rewrite Hp. apply Unchanged.
  - rewrite handle_PATCH.
    destruct (sql_select_by_id task_id db) as [r|]; simpl.
    + apply Updated. constructor; [|constructor]. simpl.
      destruct (bool_of_int _); auto.
    + apply Unchanged.
  - rewrite handle_DELETE.
    destruct (sql_select_by_id task_id db); simpl.
    + apply Deleted.
    + apply Unchanged.
Qed.

End Requests.

(** ** Invariants *)

Section Invariants.

Implicit Types (db : Db) (i : Z) (rq : request).

Lemma insert_ids title completed created_at db :
  ids (snd (sql_insert title completed created_at db)) =
  ids db ++ [next_rowid db].
Proof. unfold ids, sql_insert; simpl. now rewrite map_app. Qed.

Lemma next_rowid_not_in db : ~ In (next_rowid db) (ids db).
Proof.
  unfold ids. rewrite in_map_iff. intros [r [E Hr]].
  apply next_rowid_fresh in Hr. lia.
Qed.

(** The ids after a request: the same, one new id at the end, or the
    ids other than the deleted one. *)
Lemma effect_ids db db' :
  effect db db' ->
  ids db' = ids db
  \/ ids db' = ids db ++ [next_rowid db]
  \/ exists i, ids db' = filter (fun j => negb (j =? i)) (ids db).
Proof.
  intros [ | title c created_at Hc | sets i Hs | i ].
  - now left.
  - right; left. apply insert_ids.
  - left. apply update_ids.
  - right; right. exists i. apply delete_ids.
Qed.

Lemma effect_sequence_mono db db' :
  effect db db' -> sqlite_sequence db <= sqlite_sequence db'.
Proof.
  intros [ | title c created_at Hc | sets i Hs | i ]; simpl; try lia.
  pose proof (next_rowid_above_sequence db). lia.
Qed.

Lemma assigns_keep_0_or_1 sets r :
  Forall writes_0_or_1 sets ->
  completed_is_0_or_1 r ->
  completed_is_0_or_1 (fold_left assign sets r).
Proof.
  intros Hs. revert r.
  induction Hs as [|a l Ha _ IH]; intros r Hr; simpl; [assumption|].
  apply IH. destruct a; simpl in *; assumption.
Qed.

Lemma effect_wf db db' : effect db db' -> wf db -> wf db'.
Proof.
  intros He [Hu Hi Hc].
  destruct He as [ | title c created_at Hc01 | sets i Hs | i ].
  - now constructor.
  - constructor.
    + rewrite insert_ids.
      apply (Permutation_NoDup (l := next_rowid db :: ids db)).
      * apply Permutation_cons_append.
      * constructor; [apply next_rowid_not_in | assumption].
    + rewrite insert_ids. simpl. apply Forall_app. split.
      * pose proof (next_rowid_above_sequence db).
        eapply Forall_impl; [|exact Hi]. simpl. intros; lia.
      * constructor; [|constructor].
        pose proof (next_rowid_positive db). lia.
    + simpl. apply Forall_app. split; [assumption|].
      constructor; [exact Hc01 | constructor].
  - constructor.
    + now rewrite update_ids.
    + now rewrite update_ids.
    + simpl. apply Forall_map.
      eapply Forall_impl; [|exact Hc]. intros r Hr.
      destruct (Row.id r =? i); [now apply assigns_keep_0_or_1 | assumption].
  - constructor.
    + rewrite delete_ids. now apply NoDup_filter.
    + rewrite delete_ids. simpl.
      apply Forall_forall. intros j Hj. apply filter_In in Hj.
      rewrite Forall_forall in Hi. now apply Hi.
    + simpl. apply Forall_forall. intros r Hr. apply filter_In in Hr.
      rewrite Forall_forall in Hc. now apply Hc.
Qed.

Lemma empty_db_wf : wf empty_db.
Proof. constructor; simpl; constructor. Qed.

Lemma run_wf rqs db : wf db -> wf (run rqs db).
Proof.
  revert db. induction rqs as [|rq rest IH]; intros db Hw; simpl.
  - assumption.
  - apply IH. eapply effect_wf; [apply handle_effect | assumption].
Qed.

Lemma reachable_wf db : reachable db -> wf db.
Proof. intros [rqs ->]. apply run_wf, empty_db_wf. Qed.

Lemma run_app rqs1 rqs2 db : run (rqs1 ++ rqs2) db = run rqs2 (run rqs1 db).
Proof.
  revert db. induction rqs1 as [|rq rest IH]; intros db; simpl; auto.
Qed.

Lemma run_sequence_mono rqs db :
  sqlite_sequence db <= sqlite_sequence (run rqs db).
Proof.
  revert db. induction rqs as [|rq rest IH]; intros db; simpl; [lia|].
  pose proof (effect_sequence_mono _ _ (handle_effect rq db)).
  specialize (IH (snd (handle rq db))). lia.
Qed.

(** An id that was handed out and is no longer in the table does not
    come back. *)
Lemma effect_gone_stays_gone db db' i :
  effect db db' ->
  i <= sqlite_sequence db -> ~ In i (ids db) -> ~ In i (ids db').
Proof.
  intros He Hle Hni.
  destruct (effect_ids _ _ He) as [E|[E|[j E]]]; rewrite E.
  - assumption.
  - rewrite in_app_iff. intros [H|[H|[]]]; [tauto|].
    pose proof (next_rowid_above_sequence db). lia.
  - rewrite filter_In. tauto.
Qed.

Lemma run_gone_stays_gone rqs db i :
  i <= sqlite_sequence db -> ~ In i (ids db) -> ~ In i (ids (run rqs db)).
Proof.
  revert db. induction rqs as [|rq rest IH]; intros db Hle Hni; simpl.
  - assumption.
  - pose proof (handle_effect rq db) as He. apply IH.
    + pose proof (effect_sequence_mono _ _ He). lia.
    + eapply effect_gone_stays_gone; eassumption.
Qed.

End Invariants.

(** ** Strings, timestamps and the listing order *)

Section Texts.

Lemma lstrip_length s : (List.length (PyStr.lstrip s) <= List.length s)%nat.
Proof.
  induction s as [|c t IH]; simpl; [lia|].
  destruct (PyStr.isspace c); simpl; lia.
Qed.

Lemma strip_len_le s : PyStr.len (PyStr.strip s) <= PyStr.len s.
Proof.
  unfold PyStr.len, PyStr.strip, PyStr.rstrip.
  rewrite length_rev.
  pose proof (lstrip_length (rev (PyStr.lstrip s))) as H1.
  rewrite length_rev in H1.
  pose proof (lstrip_length s). lia.
Qed.

Lemma digits_length w n : List.length (digits w n) = w.
Proof.
  revert n. induction w as [|w IH]; intros n; simpl; [reflexivity|].
  rewrite length_app, IH. simpl. lia.
Qed.

(** [isoformat()] gives 19 characters, or 26 with the microseconds. *)
Lemma isoformat_length d :
  List.length (isoformat d) = 19%nat \/ List.length (isoformat d) = 26%nat.
Proof.
  unfold isoformat.
  destruct (microsecond d =? 0)%N;
    repeat rewrite length_app; repeat rewrite digits_length; simpl; auto.
Qed.

Lemma isoformat_nonempty d : isoformat d <> [].
Proof.
  intros E. destruct (isoformat_length d) as [H|H];
    rewrite E in H; discriminate.
Qed.

Lemma compare_antisym a b : PyStr.compare b a = CompOpp (PyStr.compare a b).
Proof.
  revert b. induction a as [|x a IH]; intros [|y b]; simpl; try reflexivity.
  rewrite (N.compare_antisym x y).
  destruct (N.compare x y); simpl; auto.
Qed.

Lemma ltb_asym a b : PyStr.ltb a b = true -> PyStr.ltb b a = false.
Proof.
  unfold PyStr.ltb. rewrite (compare_antisym a b).
  destruct (PyStr.compare a b); simpl; congruence.
Qed.

(** [fetchall()] returns every row of the table, each once. *)
Lemma insert_desc_permutation r l : Permutation (r :: l) (insert_desc r l).
Proof.
  induction l as [|x l IH]; simpl; [reflexivity|].
  destruct (PyStr.ltb (order_key r) (order_key x)); [|reflexivity].
  rewrite perm_swap. now constructor.
Qed.

Lemma select_all_permutation db : Permutation (tasks db) (sql_select_all db).
Proof.
  unfold sql_select_all. induction (tasks db) as [|x l IH]; simpl.
  - constructor.
  - rewrite <- insert_desc_permutation. now constructor.
Qed.

Lemma select_all_in db r : In r (sql_select_all db) <-> In r (tasks db).
Proof.
  split; apply Permutation_in;
    [symmetry|]; apply select_all_permutation.
Qed.

Lemma insert_desc_sorted r l :
  Sorted not_before l -> Sorted not_before (insert_desc r l).
Proof.
  induction l as [|x l IH]; simpl; intros Hs.
  - repeat constructor.
  - destruct (PyStr.ltb (order_key r) (order_key x)) eqn:E.
    + inversion Hs as [|? ? Hs' Hhd]; subst.
      constructor; [now apply IH|].
      destruct l as [|y l']; simpl.
      * constructor. now apply ltb_asym.
      * destruct (PyStr.ltb (order_key r) (order_key y)).
        -- inversion Hhd; subst. now constructor.
        -- constructor. now apply ltb_asym.
    + constructor; [assumption|]. now constructor.
Qed.

Lemma select_all_sorted db : Sorted not_before (sql_select_all db).
Proof.
  unfold sql_select_all. induction (tasks db) as [|x l IH]; simpl.
  - constructor.
  - now apply insert_desc_sorted.
Qed.

End Texts.

(* ================================================================= *)
(** * The service *)

(** ** Titles *)

Lemma lstrip_whitespace s :
  forallb PyStr.isspace s = true -> PyStr.lstrip s = [].
Proof.
  induction s as [|c t IH]; simpl; [reflexivity|].
  destruct (PyStr.isspace c); simpl; [exact IH | discriminate].
Qed.

(** A title of 1 to 255 whitespace characters passes validation and is
    stored as the empty title. *)
Lemma whitespace_title_is_stored_empty utcnow title completed db :
  1 <= PyStr.len title <= 255 ->
  forallb PyStr.isspace title = true ->
  exists t db',
    handle (POST_tasks utcnow (Value title) completed) db =
      (mkResponse 201 (One t), db')
    /\ Task.title t = []
    /\ exists r, In r (tasks db') /\ Row.title r = [].
Proof.
  intros [Hmin Hmax] Hws.
  assert (Hp : exists payload,
             parse_TaskCreate (Value title) completed = Some payload
             /\ TaskCreate.title payload = title).
  { unfold parse_TaskCreate, title_length_ok.
    replace (1 <=? PyStr.len title) with true by (symmetry; apply Z.leb_le; lia).
    replace (PyStr.len title <=? 255) with true by (symmetry; apply Z.leb_le; lia).
    eexists. split; reflexivity. }
  destruct Hp as [payload [Hp Ht]].
  assert (Hs : PyStr.strip title = []).
  { unfold PyStr.strip. now rewrite (lstrip_whitespace _ Hws). }
  exists (row_to_task (created_row payload utcnow db)),
         (mkDb (tasks db ++ [created_row payload utcnow db]) (next_rowid db)).
  split; [exact (handle_POST _ _ _ _ db Hp)|].
  split; [simpl; now rewrite Ht|].
  exists (created_row payload utcnow db). split.
  - simpl. apply in_or_app. right. now left.
  - simpl. now rewrite Ht.
Qed.

(** C1. The claim is that a create or update whose title is empty after
    trimming is rejected with 422 and that no empty title is stored. The
    code checks the length of the title as sent and trims afterwards:
    [POST /tasks {"title": "   "}] on a fresh table is answered 201 and
    stores task 1 with the empty title, and
    [PUT /tasks/1 {"title": "   "}] replaces the title of an existing task
    by the empty title. *)
Theorem C1_blank_title_is_stored :
  PyStr.strip blank_title = []
  /\ handle (POST_tasks noon_and_one_tenth (Value blank_title) Absent)
            (init_db None) =
     (mkResponse 201
        (One (Task.mk 1 [] false (isoformat noon_and_one_tenth))),
      mkDb [Row.mk 1 [] 0 (isoformat noon_and_one_tenth)] 1)
  /\ handle (PUT_tasks_id 1 (Value blank_title) Absent) one_task_db =
     (mkResponse 200
        (One (Task.mk 1 [] false (isoformat noon_and_one_tenth))),
      mkDb [Row.mk 1 [] 0 (isoformat noon_and_one_tenth)] 1).
Proof. repeat split; vm_compute; reflexivity. Qed.

(** C2, as stated, fails: a title of 256 characters that is one character
    long after trimming is answered 422 and nothing is stored. *)
Lemma C2_padded_title_is_rejected :
  PyStr.len padded_title = 256
  /\ PyStr.len (PyStr.strip padded_title) = 1
  /\ handle (POST_tasks noon_and_one_tenth (Value padded_title) Absent)
            (init_db None) =
     (mkResponse 422 (Detail "validation error"), init_db None).
Proof. repeat split; vm_compute; reflexivity. Qed.

(** C2, amended. For every title that is at most 255 characters long as
    sent and at least one character long after trimming, the create
    request is answered 201 with a task that has the trimmed title, the
    requested [completed] ([false] when the member is left out), a
    positive [id] and the non-empty [created_at] of the request's instant;
    the same task is then found under its id and is part of the listing. *)
Theorem C2_create_returns_the_trimmed_title utcnow title completed db :
  1 <= PyStr.len (PyStr.strip title) ->
  PyStr.len title <= 255 ->
  exists t db',
    handle (POST_tasks utcnow (Value title) completed) db =
      (mkResponse 201 (One t), db')
    /\ Task.title t = PyStr.strip title
    /\ Task.completed t = requested_completed completed
    /\ 1 <= Task.id t
    /\ Task.created_at t = isoformat utcnow
    /\ Task.created_at t <> []
    /\ (exists r, sql_select_by_id (Task.id t) db' = Some r
                  /\ row_to_task r = t)
    /\ (exists ts, handle GET_tasks db' = (mkResponse 200 (Many ts), db')
                   /\ In t ts).
Proof.
  intros Hmin Hmax.
  pose proof (strip_len_le title) as Hle.
  set (payload := TaskCreate.mk title
                    (match completed with
                     | Absent => Some false
                     | Null => None
                     | Value b => Some b
                     end)).
  assert (Hp : parse_TaskCreate (Value title) completed = Some payload).
  { unfold parse_TaskCreate, title_length_ok.
    replace (1 <=? PyStr.len title) with true by (symmetry; apply Z.leb_le; lia).
    replace (PyStr.len title <=? 255) with true by (symmetry; apply Z.leb_le; lia).
    reflexivity. }
  set (row := created_row payload utcnow db).
  exists (row_to_task row),
         (mkDb (tasks db ++ [row]) (next_rowid db)).
  split; [exact (handle_POST _ _ _ _ db Hp)|].
  split; [reflexivity|].
  split; [now destruct completed as [| |[|]]|].
  split; [apply next_rowid_positive|].
  split; [reflexivity|].
  split; [apply isoformat_nonempty|].
  split.
  - exists row. split; [|reflexivity].
    unfold sql_select_by_id. simpl.
    change (next_rowid db) with (Row.id row).
    apply find_app_fresh. intros r Hr. apply next_rowid_fresh in Hr.
    simpl. lia.
  - eexists. split; [reflexivity|].
    apply in_map. apply select_all_in. simpl.
    apply in_or_app. right. now left.
Qed.

Lemma C2_create_returns_the_trimmed_title_witness :
  exists t db',
    handle (POST_tasks noon_and_one_tenth
              (Value (PyStr.of_string "  Buy milk ")) (Value true))
           (init_db None) =
      (mkResponse 201 (One t), db')
    /\ Task.title t = buy_milk
    /\ Task.completed t = true
    /\ 1 <= Task.id t
    /\ Task.created_at t = isoformat noon_and_one_tenth
    /\ Task.created_at t <> []
    /\ (exists r, sql_select_by_id (Task.id t) db' = Some r
                  /\ row_to_task r = t)
    /\ (exists ts, handle GET_tasks db' = (mkResponse 200 (Many ts), db')
                   /\ In t ts).
Proof.
  apply (C2_create_returns_the_trimmed_title noon_and_one_tenth
           (PyStr.of_string "  Buy milk ") (Value true) (init_db None)).
  - vm_compute. discriminate.
  - vm_compute. discriminate.
Defined.

(** ** Listing *)

(** The listing holds exactly the stored tasks, and no task in it is
    directly followed by a task created in a later second. *)
Lemma list_tasks_all_by_second db :
  exists rows,
    handle GET_tasks db = (mkResponse 200 (Many (map row_to_task rows)), db)
    /\ Permutation (tasks db) rows
    /\ Sorted not_before rows.
Proof.
  exists (sql_select_all db). split; [reflexivity|].
  split; [apply select_all_permutation | apply select_all_sorted].
Qed.

(** C3. The claim is that the listing is newest first, so that of two
    tasks the one created second comes first. The sort key
    [datetime(created_at)] has no fraction of a second: task 1 created at
    12:00:00.100000 and task 2 created at 12:00:00.200000 have the same
    key and are listed in table order, task 1 before task 2, although the
    [created_at] of task 1 is the smaller one. *)
Theorem C3_same_second_lists_the_older_task_first :
  let db := run [POST_tasks noon_and_one_tenth (Value (PyStr.of_string "T1")) Absent;
                 POST_tasks noon_and_two_tenths (Value (PyStr.of_string "T2")) Absent]
                (init_db None) in
  handle GET_tasks db =
    (mkResponse 200
       (Many [Task.mk 1 (PyStr.of_string "T1") false
                (PyStr.of_string "2024-01-01T12:00:00.100000");
              Task.mk 2 (PyStr.of_string "T2") false
                (PyStr.of_string "2024-01-01T12:00:00.200000")]),
     db)
  /\ PyStr.ltb (PyStr.of_string "2024-01-01T12:00:00.100000")
               (PyStr.of_string "2024-01-01T12:00:00.200000") = true
  /\ sql_datetime (PyStr.of_string "2024-01-01T12:00:00.100000") =
     sql_datetime (PyStr.of_string "2024-01-01T12:00:00.200000").
Proof. repeat split; vm_compute; reflexivity. Qed.

(** ** Requests for an id that is not in the table *)

Lemma missing_id_answers_not_found db task_id :
  ~ In task_id (ids db) -> answers_not_found task_id db.
Proof.
  intros Hni. apply select_by_id_none in Hni.
  repeat split.
  - now rewrite handle_PATCH, Hni.
  - now rewrite handle_DELETE, Hni.
  - intros title completed payload Hp Hf.
    now rewrite (handle_PUT _ _ _ _ _ Hp Hf), Hni.
Qed.

(** C4, as stated, fails for the update: [PUT /tasks/7] with a body that
    has neither member, on a table without task 7, is answered 400. *)
Lemma C4_update_without_fields_on_missing_id_is_400 :
  sql_select_by_id 7 (init_db None) = None
  /\ handle (PUT_tasks_id 7 Absent Absent) (init_db None) =
     (mkResponse 400 (Detail "No fields provided to update"), init_db None).
Proof. split; reflexivity. Qed.

(** C4, amended. For every id that is a signed 64-bit integer and has
    no row in the table, the toggle and the delete are answered 404, and
    so is every update whose body is accepted and provides [title] or
    [completed]; in each case the database is unchanged. *)
Theorem C4_missing_id_is_not_found db task_id :
  sqlite_integer task_id ->
  ~ In task_id (ids db) ->
  handle (PATCH_tasks_id_toggle task_id) db =
    (mkResponse 404 (Detail "Task not found"), db)
  /\ handle (DELETE_tasks_id task_id) db =
    (mkResponse 404 (Detail "Task not found"), db)
  /\ forall title completed payload,
      parse_TaskUpdate title completed = Some payload ->
      has_field payload ->
      handle (PUT_tasks_id task_id title completed) db =
      (mkResponse 404 (Detail "Task not found"), db).
Proof. intros _. apply missing_id_answers_not_found. Qed.

Lemma C4_missing_id_is_not_found_witness :
  handle (PATCH_tasks_id_toggle 2) one_task_db =
    (mkResponse 404 (Detail "Task not found"), one_task_db)
  /\ handle (DELETE_tasks_id 2) one_task_db =
    (mkResponse 404 (Detail "Task not found"), one_task_db)
  /\ handle (PUT_tasks_id 2 (Value buy_milk) (Value true)) one_task_db =
    (mkResponse 404 (Detail "Task not found"), one_task_db).
Proof.
  assert (H64 : sqlite_integer 2).
  { unfold sqlite_integer. lia. }
  assert (H : ~ In 2 (ids one_task_db)).
  { vm_compute. intros [E|[]]. discriminate E. }
  destruct (C4_missing_id_is_not_found one_task_db 2 H64 H) as [Ht [Hd Hu]].
  split; [exact Ht|]. split; [exact Hd|].
  apply (Hu (Value buy_milk) (Value true)
            (TaskUpdate.mk (Some buy_milk) (Some true))).
  - reflexivity.
  - left. discriminate.
Defined.

(** ** Toggle *)

Lemma toggled_completed r :
  bool_of_int (Row.completed (toggled r)) = negb (bool_of_int (Row.completed r)).
Proof.
  unfold toggled; simpl. now destruct (bool_of_int (Row.completed r)).
Qed.

(** C5. For a task in the table, the toggle is answered 200 with the task
    and the negation of its [completed], and a second toggle is answered
    200 with the task as it was before the first. *)
Theorem C5_toggle_twice_restores_completed db task_id r :
  sql_select_by_id task_id db = Some r ->
  exists t1 db1 t2 db2,
    handle (PATCH_tasks_id_toggle task_id) db = (mkResponse 200 (One t1), db1)
    /\ Task.completed t1 = negb (Task.completed (row_to_task r))
    /\ handle (PATCH_tasks_id_toggle task_id) db1 =
       (mkResponse 200 (One t2), db2)
    /\ Task.completed t2 = negb (Task.completed t1)
    /\ t2 = row_to_task r.
Proof.
  intros Hsel.
  pose proof (select_by_id_in _ _ _ Hsel) as [_ Hid].
  set (db1 := sql_update
                [SetCompleted (if bool_of_int (Row.completed r) then 0 else 1)]
                task_id db).
  assert (Hsel1 : sql_select_by_id task_id db1 = Some (toggled r)).
  { unfold db1. rewrite select_after_update, Hsel. simpl.
    rewrite <- Hid, Z.eqb_refl. reflexivity. }
  exists (row_to_task (toggled r)), db1, (row_to_task (toggled (toggled r))),
         (sql_update
            [SetCompleted
               (if bool_of_int (Row.completed (toggled r)) then 0 else 1)]
            task_id db1).
  split; [now rewrite handle_PATCH, Hsel|].
  split; [apply toggled_completed|].
  split; [now rewrite handle_PATCH, Hsel1|].
  split; [apply toggled_completed|].
  unfold row_to_task. rewrite !toggled_completed, negb_involutive.
  reflexivity.
Qed.

Lemma C5_toggle_twice_restores_completed_witness :
  exists t1 db1 t2 db2,
    handle (PATCH_tasks_id_toggle 1) one_task_db =
      (mkResponse 200 (One t1), db1)
    /\ Task.completed t1 = true
    /\ handle (PATCH_tasks_id_toggle 1) db1 = (mkResponse 200 (One t2), db2)
    /\ Task.completed t2 = negb (Task.completed t1)
    /\ t2 = Task.mk 1 buy_milk false (isoformat noon_and_one_tenth).
Proof.
  apply (C5_toggle_twice_restores_completed one_task_db 1
           (Row.mk 1 buy_milk 0 (isoformat noon_and_one_tenth))).
  reflexivity.
Defined.

(** ** Errors commit nothing *)

Lemma error_leaves_db rq db :
  400 <= status (fst (handle rq db)) -> snd (handle rq db) = db.
Proof.
  destruct rq as [| |utcnow title completed|task_id title completed
                  |task_id|task_id].
  - reflexivity.
  - reflexivity.
  - destruct (parse_TaskCreate title completed) as [payload|] eqn:Hp.
    + rewrite (handle_POST _ _ _ _ _ Hp). simpl. lia.
    + simpl. now rewrite Hp.
  - destruct (parse_TaskUpdate title completed) as [payload|] eqn:Hp.
    + destruct (payload_cases payload) as [->|Hf].
      * now rewrite (handle_PUT_no_fields _ _ _ _ Hp).
      * rewrite (handle_PUT _ _ _ _ _ Hp Hf).
        destruct (sql_select_by_id task_id db); simpl; [lia | reflexivity].
    + simpl. now rewrite Hp.
  - rewrite handle_PATCH.
    destruct (sql_select_by_id task_id db); simpl; [lia | reflexivity].
  - rewrite handle_DELETE.
    destruct (sql_select_by_id task_id db); simpl; [lia | reflexivity].
Qed.

(** C6. An update whose body provides neither [title] nor [completed]
    (each left out or [null]) is answered 400 and the database is
    unchanged; and whenever a request is answered with an error status,
    the database is the one before the request. *)
Theorem C6_update_without_fields_is_400 :
  (forall task_id title completed db,
      not_provided title -> not_provided completed ->
      handle (PUT_tasks_id task_id title completed) db =
      (mkResponse 400 (Detail "No fields provided to update"), db))
  /\ (forall rq db,
        400 <= status (fst (handle rq db)) -> snd (handle rq db) = db).
Proof.
  split.
  - intros task_id title completed db [->| ->] [->| ->]; reflexivity.
  - exact error_leaves_db.
Qed.

Lemma C6_update_without_fields_is_400_witness :
  handle (PUT_tasks_id 1 Absent Null) one_task_db =
    (mkResponse 400 (Detail "No fields provided to update"), one_task_db)
  /\ snd (handle (PUT_tasks_id 1 Absent Null) one_task_db) = one_task_db.
Proof.
  destruct C6_update_without_fields_is_400 as [H400 Herr].
  split.
  - apply H400; [left | right]; reflexivity.
  - apply Herr. vm_compute. discriminate.
Defined.

(** ** Delete *)

Lemma filter_absent (rows : list Row.t) i :
  ~ In i (map Row.id rows) ->
  filter (fun x => negb (Row.id x =? i)) rows = rows
  /\ filter (fun x => Row.id x =? i) rows = [].
Proof.
  induction rows as [|x l IH]; simpl; intros Hni; [now split|].
  destruct (Z.eqb_spec (Row.id x) i) as [E|E]; [tauto|]. simpl.
  destruct IH as [IH1 IH2]; [tauto|]. now rewrite IH1, IH2.
Qed.

(** Under the primary key, the [DELETE] takes out the one row a lookup
    finds and nothing else. *)
Lemma delete_removes_one (rows : list Row.t) i r :
  NoDup (map Row.id rows) ->
  find (fun x => Row.id x =? i) rows = Some r ->
  exists before after,
    rows = before ++ r :: after
    /\ filter (fun x => negb (Row.id x =? i)) rows = before ++ after
    /\ filter (fun x => Row.id x =? i) rows = [r].
Proof.
  induction rows as [|x l IH]; simpl; intros Hnd Hf; [discriminate|].
  inversion Hnd as [|? ? Hx Hl]; subst.
  destruct (Z.eqb_spec (Row.id x) i) as [E|E]; simpl.
  - injection Hf as ->. subst i.
    destruct (filter_absent l (Row.id r) Hx) as [F1 F2].
    exists [], l. now rewrite F1, F2.
  - destruct (IH Hl Hf) as [before [after [E1 [E2 E3]]]].
    exists (x :: before), after. simpl. now rewrite <- E1, E2, E3.
Qed.

(** C7, as stated, fails for the update: after task 1 was created and
    deleted, [PUT /tasks/1] with a body that has neither member is
    answered 400. *)
Lemma C7_update_without_fields_after_delete_is_400 :
  handle (DELETE_tasks_id 1) one_task_db =
    (mkResponse 204 Empty, mkDb [] 1)
  /\ handle (PUT_tasks_id 1 Absent Absent) (mkDb [] 1) =
     (mkResponse 400 (Detail "No fields provided to update"), mkDb [] 1).
Proof. split; reflexivity. Qed.

(** C7, amended. For every task in the table, the delete is answered 204
    with an empty body; its statement reports one row, and the table
    afterwards is the table before without that row. After any further
    requests the id is still not in the table: a lookup finds nothing, and
    the toggle, the delete and every accepted update that provides a
    member are answered 404. *)
Theorem C7_delete_removes_the_task db task_id r :
  reachable db ->
  sql_select_by_id task_id db = Some r ->
  exists db' before after,
    handle (DELETE_tasks_id task_id) db = (mkResponse 204 Empty, db')
    /\ fst (sql_delete task_id db) = 1
    /\ tasks db = before ++ r :: after
    /\ tasks db' = before ++ after
    /\ forall rqs,
        sql_select_by_id task_id (run rqs db') = None
        /\ answers_not_found task_id (run rqs db').
Proof.
  intros Hr Hsel.
  pose proof (reachable_wf _ Hr) as [Hu Hi _].
  destruct (delete_removes_one _ _ _ Hu Hsel)
    as [before [after [E1 [E2 E3]]]].
  exists (snd (sql_delete task_id db)), before, after.
  split; [now rewrite handle_DELETE, Hsel|].
  split; [unfold sql_delete; simpl; now rewrite E3|].
  split; [exact E1|].
  split; [exact E2|].
  intros rqs.
  assert (Hgone : ~ In task_id (ids (run rqs (snd (sql_delete task_id db))))).
  { apply run_gone_stays_gone.
    - simpl. apply select_by_id_in in Hsel. destruct Hsel as [Hin Hid].
      rewrite Forall_forall in Hi.
      specialize (Hi task_id). rewrite <- Hid in *.
      assert (In (Row.id r) (ids db)) by (now apply in_map).
      apply Hi in H. lia.
    - apply select_by_id_none, select_after_delete. }
  split; [now apply select_by_id_none|].
  now apply missing_id_answers_not_found.
Qed.

Lemma C7_delete_removes_the_task_witness :
  exists db' before after,
    handle (DELETE_tasks_id 1) one_task_db = (mkResponse 204 Empty, db')
    /\ fst (sql_delete 1 one_task_db) = 1
    /\ tasks one_task_db =
       before ++ Row.mk 1 buy_milk 0 (isoformat noon_and_one_tenth) :: after
    /\ tasks db' = before ++ after
    /\ forall rqs,
        sql_select_by_id 1 (run rqs db') = None
        /\ answers_not_found 1 (run rqs db').
Proof.
  apply (C7_delete_removes_the_task one_task_db 1
           (Row.mk 1 buy_milk 0 (isoformat noon_and_one_tenth))).
  - exists [POST_tasks noon_and_one_tenth (Value buy_milk) Absent].
    reflexivity.
  - reflexivity.
Defined.

(** ** Update and toggle leave the rest alone *)

Lemma unchanged_frame task_id (rows : list Row.t) :
  Forall2 (only_title_and_completed_change task_id) rows rows.
Proof.
  induction rows as [|x l IH]; constructor; [|exact IH].
  repeat split; auto.
Qed.

Lemma update_frame sets task_id db :
  Forall2 (only_title_and_completed_change task_id)
          (tasks db) (tasks (sql_update sets task_id db)).
Proof.
  unfold sql_update; simpl.
  induction (tasks db) as [|x l IH]; simpl; constructor; [|exact IH].
  destruct (Z.eqb_spec (Row.id x) task_id) as [E|E].
  - split; [apply assigns_id|]. split; [apply assigns_created_at|]. tauto.
  - repeat split; auto.
Qed.

(** An update or a toggle either leaves the database as it is or runs one
    [UPDATE ... WHERE id = task_id]. *)
Lemma modifies_effect task_id rq db :
  modifies task_id rq ->
  snd (handle rq db) = db
  \/ exists sets, snd (handle rq db) = sql_update sets task_id db.
Proof.
  intros [->|[title [completed ->]]].
  - rewrite handle_PATCH.
    destruct (sql_select_by_id task_id db) as [r|]; simpl; eauto.
  - destruct (parse_TaskUpdate title completed) as [payload|] eqn:Hp.
    + destruct (payload_cases payload) as [->|Hf].
      * rewrite (handle_PUT_no_fields _ _ _ _ Hp). now left.
      * rewrite (handle_PUT _ _ _ _ _ Hp Hf).
        destruct (sql_select_by_id task_id db); simpl; eauto.
    + simpl. rewrite Hp. now left.
Qed.

(** C8. After an update or a toggle of a task, the table has the same
    rows in the same places, each with the [id] and the [created_at] it
    had, and every row other than the addressed one is as it was; the
    AUTOINCREMENT counter is as it was. *)
Theorem C8_update_and_toggle_change_only_title_and_completed task_id rq db :
  modifies task_id rq ->
  Forall2 (only_title_and_completed_change task_id)
          (tasks db) (tasks (snd (handle rq db)))
  /\ sqlite_sequence (snd (handle rq db)) = sqlite_sequence db.
Proof.
  intros Hm. destruct (modifies_effect task_id rq db Hm) as [E|[sets E]];
    rewrite E.
  - split; [apply unchanged_frame | reflexivity].
  - split; [apply update_frame | reflexivity].
Qed.

Lemma C8_update_and_toggle_change_only_title_and_completed_witness :
  Forall2 (only_title_and_completed_change 1)
          (tasks one_task_db)
          (tasks (snd (handle (PUT_tasks_id 1 (Value (PyStr.of_string "Buy tea"))
                                 (Value true)) one_task_db)))
  /\ sqlite_sequence
       (snd (handle (PUT_tasks_id 1 (Value (PyStr.of_string "Buy tea"))
                       (Value true)) one_task_db)) =
     sqlite_sequence one_task_db.
Proof.
  apply (C8_update_and_toggle_change_only_title_and_completed 1
           (PUT_tasks_id 1 (Value (PyStr.of_string "Buy tea")) (Value true))
           one_task_db).
  right. exists (Value (PyStr.of_string "Buy tea")), (Value true).
  reflexivity.
Defined.

(** ** Ids *)

Lemma created_id rq db t db' c :
  handle rq db = (mkResponse 201 c, db') -> In t (tasks_of c) ->
  Task.id t = next_rowid db /\ sqlite_sequence db' = next_rowid db.
Proof.
  destruct rq as [| |utcnow title completed|task_id title completed
                  |task_id|task_id].
  - discriminate.
  - discriminate.
  - destruct (parse_TaskCreate title completed) as [payload|] eqn:Hp.
    + rewrite (handle_POST _ _ _ _ _ Hp). intros E. injection E as <- <-.
      simpl. intros [<-|[]]. now split.
    + simpl. rewrite Hp. discriminate.
  - destruct (parse_TaskUpdate title completed) as [payload|] eqn:Hp.
    + destruct (payload_cases payload) as [->|Hf].
      * rewrite (handle_PUT_no_fields _ _ _ _ Hp). discriminate.
      * rewrite (handle_PUT _ _ _ _ _ Hp Hf).
        destruct (sql_select_by_id task_id db); discriminate.
    + simpl. rewrite Hp. discriminate.
  - rewrite handle_PATCH.
    destruct (sql_select_by_id task_id db); discriminate.
  - rewrite handle_DELETE.
    destruct (sql_select_by_id task_id db); discriminate.
Qed.

(** C9. The id of a created task is the one the table hands out, larger
    than every id in the table and than every id handed out before; no
    two rows of a reachable table share an id; of two tasks created one
    after the other, with any requests in between, the later has the
    larger id; and a request leaves the ids of the table as they are,
    or adds the new id at the end, or takes the deleted id out. *)
Theorem C9_ids_are_unique_increasing_and_stable :
  (forall utcnow title completed db t db',
      handle (POST_tasks utcnow title completed) db =
        (mkResponse 201 (One t), db') ->
      Task.id t = next_rowid db
      /\ sqlite_sequence db < Task.id t
      /\ Forall (fun i => i < Task.id t) (ids db))
  /\ (forall db, reachable db -> NoDup (ids db))
  /\ (forall rq1 db t1 db1 rqs rq2 t2 db2,
        handle rq1 db = (mkResponse 201 (One t1), db1) ->
        handle rq2 (run rqs db1) = (mkResponse 201 (One t2), db2) ->
        Task.id t1 < Task.id t2)
  /\ (forall rq db,
        ids (snd (handle rq db)) = ids db
        \/ ids (snd (handle rq db)) = ids db ++ [next_rowid db]
        \/ exists task_id,
            ids (snd (handle rq db)) =
            filter (fun j => negb (j =? task_id)) (ids db)).
Proof.
  split; [|split; [|split]].
  - intros utcnow title completed db t db' H.
    destruct (created_id _ _ t _ _ H) as [E _]; [now left|].
    rewrite E. split; [reflexivity|].
    split; [apply next_rowid_above_sequence|].
    apply Forall_forall. intros i Hi. unfold ids in Hi.
    apply in_map_iff in Hi. destruct Hi as [r [<- Hr]].
    now apply next_rowid_fresh.
  - intros db Hr. now destruct (reachable_wf _ Hr).
  - intros rq1 db t1 db1 rqs rq2 t2 db2 H1 H2.
    destruct (created_id _ _ t1 _ _ H1) as [E1 S1]; [now left|].
    destruct (created_id _ _ t2 _ _ H2) as [E2 _]; [now left|].
    pose proof (run_sequence_mono rqs db1).
    pose proof (next_rowid_above_sequence (run rqs db1)). lia.
  - intros rq db. apply effect_ids, handle_effect.
Qed.

Lemma C9_ids_are_unique_increasing_and_stable_witness :
  (Task.id (Task.mk 2 buy_milk false (isoformat noon_and_two_tenths)) =
     next_rowid one_task_db
   /\ sqlite_sequence one_task_db < 2
   /\ Forall (fun i => i < 2) (ids one_task_db))
  /\ NoDup (ids one_task_db)
  /\ 1 < 2.
Proof.
  destruct C9_ids_are_unique_increasing_and_stable as [Hnew [Huniq [Hmono _]]].
  split; [|split].
  - apply (Hnew noon_and_two_tenths (Value buy_milk) Absent one_task_db
             (Task.mk 2 buy_milk false (isoformat noon_and_two_tenths))
             (run [POST_tasks noon_and_two_tenths (Value buy_milk) Absent]
                  one_task_db)).
    reflexivity.
  - apply Huniq.
    exists [POST_tasks noon_and_one_tenth (Value buy_milk) Absent].
    reflexivity.
  - apply (Hmono (POST_tasks noon_and_one_tenth (Value buy_milk) Absent)
             (init_db None)
             (Task.mk 1 buy_milk false (isoformat noon_and_one_tenth))
             one_task_db
             [PATCH_tasks_id_toggle 1; DELETE_tasks_id 1]
             (POST_tasks noon_and_two_tenths (Value buy_milk) Absent)
             (Task.mk 2 buy_milk false (isoformat noon_and_two_tenths))
             (mkDb [Row.mk 2 buy_milk 0 (isoformat noon_and_two_tenths)] 2)).
    + reflexivity.
    + reflexivity.
Defined.

(** ** The completed flag *)

Lemma assigns_completed sets r :
  Forall writes_0_or_1 sets ->
  completed_is_0_or_1 (fold_left assign sets r)
  \/ Row.completed (fold_left assign sets r) = Row.completed r.
Proof.
  intros Hs. revert r.
  induction Hs as [|a l Ha Hl IH]; intros r; simpl; [now right|].
  destruct (IH (assign r a)) as [H|H]; [now left|].
  destruct a as [v|v]; simpl in *.
  - now right.
  - left. unfold completed_is_0_or_1. now rewrite H.
Qed.

(** The [completed] column of a row after a request is 0 or 1, or it is
    what the same row held before the request. *)
Lemma effect_completed db db' r' :
  effect db db' -> In r' (tasks db') ->
  completed_is_0_or_1 r'
  \/ exists r, In r (tasks db) /\ Row.id r = Row.id r'
               /\ Row.completed r = Row.completed r'.
Proof.
  intros [ | title c created_at Hc | sets i Hs | i ]; simpl.
  - intros Hin. right. now exists r'.
  - rewrite in_app_iff. intros [Hin|[<-|[]]].
    + right. now exists r'.
    + now left.
  - rewrite in_map_iff. intros [r [E Hin]].
    destruct (Row.id r =? i).
    + subst r'. destruct (assigns_completed sets r Hs) as [H|H];
        [now left|].
      right. exists r. now rewrite assigns_id.
    + subst r'. right. now exists r.
  - rewrite filter_In. intros [Hin _]. right. now exists r'.
Qed.

Lemma updated_row_in sets task_id db r :
  In r (tasks db) -> Row.id r = task_id ->
  In (fold_left assign sets r) (tasks (sql_update sets task_id db)).
Proof.
  intros Hin Hid. unfold sql_update; simpl. apply in_map_iff.
  exists r. split; [|assumption].
  apply Z.eqb_eq in Hid. now rewrite Hid.
Qed.

(** Every task in a response is the reading of a row of the database
    the request leaves behind. *)
Lemma response_tasks_are_rows rq db t :
  In t (tasks_of (body (fst (handle rq db)))) ->
  exists r, In r (tasks (snd (handle rq db))) /\ t = row_to_task r.
Proof.
  destruct rq as [| |utcnow title completed|task_id title completed
                  |task_id|task_id].
  - intros [].
  - simpl. rewrite in_map_iff. intros [r [<- Hin]].
    exists r. split; [now apply select_all_in | reflexivity].
  - destruct (parse_TaskCreate title completed) as [payload|] eqn:Hp.
    + rewrite (handle_POST _ _ _ _ _ Hp). simpl. intros [<-|[]].
      eexists. split; [|reflexivity]. apply in_or_app. right. now left.
    + simpl. rewrite Hp. intros [].
  - destruct (parse_TaskUpdate title completed) as [payload|] eqn:Hp.
    + destruct (payload_cases payload) as [->|Hf].
      * rewrite (handle_PUT_no_fields _ _ _ _ Hp). intros [].
      * rewrite (handle_PUT _ _ _ _ _ Hp Hf).
        destruct (sql_select_by_id task_id db) as [r|] eqn:Hsel; simpl;
          [|intros []].
        intros [<-|[]]. apply select_by_id_in in Hsel.
        destruct Hsel as [Hin Hid].
        eexists. split; [|reflexivity]. now apply updated_row_in.
    + simpl. rewrite Hp. intros [].
  - rewrite handle_PATCH.
    destruct (sql_select_by_id task_id db) as [r|] eqn:Hsel; simpl;
      [|intros []].
    intros [<-|[]]. apply select_by_id_in in Hsel.
    destruct Hsel as [Hin Hid].
    exists (toggled r). split; [|reflexivity].
    unfold toggled.
    change (assign r (SetCompleted (if bool_of_int (Row.completed r) then 0 else 1)))
      with (fold_left assign
              [SetCompleted (if bool_of_int (Row.completed r) then 0 else 1)] r).
    now apply updated_row_in.
  - rewrite handle_DELETE.
    destruct (sql_select_by_id task_id db); intros [].
Qed.

(** C10. Whatever the database held, the [completed] column of a row
    after a request is 0 or 1 unless the request left that column of the
    row as it was; so in every reachable database each [completed] is 0
    or 1, and each task of a response is the reading of a stored row whose
    [completed] column is 1 when the task's flag is [true] and 0 when it
    is [false]. *)
Theorem C10_completed_is_stored_as_0_or_1 :
  (forall rq db r',
      In r' (tasks (snd (handle rq db))) ->
      completed_is_0_or_1 r'
      \/ exists r, In r (tasks db) /\ Row.id r = Row.id r'
                   /\ Row.completed r = Row.completed r')
  /\ (forall db, reachable db -> Forall completed_is_0_or_1 (tasks db))
  /\ (forall rq db t,
        reachable db ->
        In t (tasks_of (body (fst (handle rq db)))) ->
        exists r,
          In r (tasks (snd (handle rq db)))
          /\ t = row_to_task r
          /\ Row.completed r = (if Task.completed t then 1 else 0)).
Proof.
  split; [|split].
  - intros rq db r'. apply effect_completed, handle_effect.
  - intros db Hr. now destruct (reachable_wf _ Hr).
  - intros rq db t Hr Hin.
    destruct (response_tasks_are_rows rq db t Hin) as [r [Hrow ->]].
    exists r. split; [assumption|]. split; [reflexivity|].
    assert (Hw : wf (snd (handle rq db))).
    { eapply effect_wf; [apply handle_effect | now apply reachable_wf]. }
    destruct Hw as [_ _ Hc]. rewrite Forall_forall in Hc.
    destruct (Hc r Hrow) as [E|E]; simpl; unfold bool_of_int;
      now rewrite E.
Qed.

Lemma C10_completed_is_stored_as_0_or_1_witness :
  Forall completed_is_0_or_1 (tasks one_task_db)
  /\ exists r,
      In r (tasks (snd (handle (PATCH_tasks_id_toggle 1) one_task_db)))
      /\ Task.mk 1 buy_milk true (isoformat noon_and_one_tenth) = row_to_task r
      /\ Row.completed r = 1.
Proof.
  destruct C10_completed_is_stored_as_0_or_1 as [_ [Hinv Hread]].
  assert (Hr : reachable one_task_db).
  { exists [POST_tasks noon_and_one_tenth (Value buy_milk) Absent].
    reflexivity. }
  split.
  - apply Hinv. exact Hr.
  - apply (Hread (PATCH_tasks_id_toggle 1) one_task_db
             (Task.mk 1 buy_milk true (isoformat noon_and_one_tenth)) Hr).
    simpl. left. reflexivity.
Defined.

(* ================================================================= *)
(** * Further properties of the handlers *)

(** ** Status codes *)

(** The database a request leaves behind, by the kind of request. *)
Lemma handle_db rq db :
  snd (handle rq db) = db
  \/ (exists utcnow title completed payload,
        rq = POST_tasks utcnow title completed
        /\ parse_TaskCreate title completed = Some payload
        /\ snd (handle rq db) =
           mkDb (tasks db ++ [created_row payload utcnow db]) (next_rowid db))
  \/ (exists task_id title completed payload,
        rq = PUT_tasks_id task_id title completed
        /\ parse_TaskUpdate title completed = Some payload
        /\ snd (handle rq db) = sql_update (update_sets payload) task_id db)
  \/ (exists task_id r,
        rq = PATCH_tasks_id_toggle task_id
        /\ snd (handle rq db) =
           sql_update
             [SetCompleted (if bool_of_int (Row.completed r) then 0 else 1)]
             task_id db)
  \/ (exists task_id,
        rq = DELETE_tasks_id task_id
        /\ snd (handle rq db) = snd (sql_delete task_id db)).
Proof.
  destruct rq as [| |utcnow title completed|task_id title completed
                  |task_id|task_id].
  - now left.
  - now left.
  - destruct (parse_TaskCreate title completed) as [payload|] eqn:Hp.
    + right; left. exists utcnow, title, completed, payload.
      now rewrite (handle_POST _ _ _ _ _ Hp).
    + left. simpl. now rewrite Hp.
  - destruct (parse_TaskUpdate title completed) as [payload|] eqn:Hp.
    + destruct (payload_cases payload) as [->|Hf].
      * left. now rewrite (handle_PUT_no_fields _ _ _ _ Hp).
      * rewrite (handle_PUT _ _ _ _ _ Hp Hf).
        destruct (sql_select_by_id task_id db); simpl; [|now left].
        right; right; left. now exists task_id, title, completed, payload.
    + left. simpl. now rewrite Hp.
  - rewrite handle_PATCH.
    destruct (sql_select_by_id task_id db) as [r|]; simpl; [|now left].
    right; right; right; left. now exists task_id, r.
  - rewrite handle_DELETE.
    destruct (sql_select_by_id task_id db); simpl; [|now left].
    right; right; right; right. now exists task_id.
Qed.

(** X1. A request whose parameters SQLite can hold (a task id that is a
    signed 64-bit integer, a title made of Unicode scalar values) and
    whose body has members of the declared types is not answered 500:
    the row read back after an [INSERT] or an [UPDATE] is always there,
    so the [except Exception] branches are not taken. Each endpoint then
    answers with one of its own codes. *)
Theorem no_request_is_answered_500 rq db :
  storable rq ->
  status (fst (handle rq db)) <> 500
  /\ match rq with
     | GET_health | GET_tasks => status (fst (handle rq db)) = 200
     | POST_tasks _ _ _ =>
         status (fst (handle rq db)) = 201
         \/ status (fst (handle rq db)) = 422
     | PUT_tasks_id _ _ _ =>
         status (fst (handle rq db)) = 200
         \/ status (fst (handle rq db)) = 400
         \/ status (fst (handle rq db)) = 404
         \/ status (fst (handle rq db)) = 422
     | PATCH_tasks_id_toggle _ =>
         status (fst (handle rq db)) = 200
         \/ status (fst (handle rq db)) = 404
     | DELETE_tasks_id _ =>
         status (fst (handle rq db)) = 204
         \/ status (fst (handle rq db)) = 404
     end.
Proof.
  intros _.
  destruct rq as [| |utcnow title completed|task_id title completed
                  |task_id|task_id].
  - split; [discriminate | reflexivity].
  - split; [discriminate | reflexivity].
  - destruct (parse_TaskCreate title completed) as [payload|] eqn:Hp.
    + rewrite (handle_POST _ _ _ _ _ Hp). simpl. split; [lia | now left].
    + simpl. rewrite Hp. simpl. split; [lia | now right].
  - destruct (parse_TaskUpdate title completed) as [payload|] eqn:Hp.
    + destruct (payload_cases payload) as [->|Hf].
      * rewrite (handle_PUT_no_fields _ _ _ _ Hp). simpl.
        split; [lia | right; now left].
      * rewrite (handle_PUT _ _ _ _ _ Hp Hf).
        destruct (sql_select_by_id task_id db); simpl.
        -- split; [lia | now left].
        -- split; [lia | right; right; now left].
    + simpl. rewrite Hp. simpl. split; [lia | now repeat right].
  - rewrite handle_PATCH.
    destruct (sql_select_by_id task_id db); simpl;
      (split; [lia | auto]).
  - rewrite handle_DELETE.
    destruct (sql_select_by_id task_id db); simpl;
      (split; [lia | auto]).
Qed.

(** X2. For an id that is a signed 64-bit integer and a body whose
    title, if given, is a text of Unicode scalar values and whose
    [completed], if given, is a boolean, the status of
    [PUT /tasks/{task_id}] is decided in this order: 422 when a title is
    given and is empty or longer than 255 characters; otherwise 400 when
    neither member carries a value; otherwise 404 when the id is not in
    the table; otherwise 200. *)
Theorem update_status_precedence task_id title completed db :
  sqlite_integer task_id ->
  encodable_member title ->
  status (fst (handle (PUT_tasks_id task_id title completed) db)) =
  match title, completed with
  | Value s, _ =>
      if title_length_ok s then lookup_status task_id db else 422
  | _, Value _ => lookup_status task_id db
  | _, _ => 400
  end.
Proof.
  intros _ _.
  unfold lookup_status.
  destruct title as [| |s].
  - destruct completed as [| |b]; try reflexivity.
    rewrite (handle_PUT task_id Absent (Value b)
               (TaskUpdate.mk None (Some b)) db eq_refl)
      by (right; discriminate).
    now destruct (sql_select_by_id task_id db).
  - destruct completed as [| |b]; try reflexivity.
    rewrite (handle_PUT task_id Null (Value b)
               (TaskUpdate.mk None (Some b)) db eq_refl)
      by (right; discriminate).
    now destruct (sql_select_by_id task_id db).
  - destruct (title_length_ok s) eqn:Hl.
    + assert (Hp : parse_TaskUpdate (Value s) completed =
                   Some (TaskUpdate.mk (Some s)
                           (match completed with
                            | Value b => Some b
                            | _ => None
                            end))).
      { unfold parse_TaskUpdate. now rewrite Hl. }
      rewrite (handle_PUT _ _ _ _ db Hp) by (left; discriminate).
      now destruct (sql_select_by_id task_id db).
    + simpl. unfold parse_TaskUpdate. now rewrite Hl.
Qed.

(** X3. For a body whose title, if given, is a text of Unicode scalar
    values and whose [completed], if given, is a boolean:
    [POST /tasks] is answered 201 when the title is a text of 1 to 255
    characters as sent, and the table then has one more row; when the
    title is left out, [null], empty or longer, it is answered 422 and
    the database is untouched. Whether [completed] is [true], [false],
    [null] or left out plays no part in the status. *)
Theorem create_status utcnow title completed db :
  encodable_member title ->
  match title with
  | Value s =>
      if (1 <=? PyStr.len s) && (PyStr.len s <=? 255) then
        status (fst (handle (POST_tasks utcnow title completed) db)) = 201
        /\ List.length (tasks (snd (handle (POST_tasks utcnow title completed) db)))
           = S (List.length (tasks db))
      else
        handle (POST_tasks utcnow title completed) db = (unprocessable, db)
  | _ => handle (POST_tasks utcnow title completed) db = (unprocessable, db)
  end.
Proof.
  intros _.
  destruct title as [| |s]; try reflexivity.
  destruct ((1 <=? PyStr.len s) && (PyStr.len s <=? 255)) eqn:Hl.
  - assert (Hp : exists payload,
               parse_TaskCreate (Value s) completed = Some payload).
    { unfold parse_TaskCreate, title_length_ok. rewrite Hl. eauto. }
    destruct Hp as [payload Hp].
    rewrite (handle_POST _ _ _ _ db Hp). simpl.
    split; [reflexivity|]. rewrite length_app. simpl. lia.
  - simpl. unfold parse_TaskCreate, title_length_ok. now rewrite Hl.
Qed.

Lemma no_request_is_answered_500_witness :
  status (fst (handle (PUT_tasks_id 1 (Value buy_milk) (Value true))
                 one_task_db)) <> 500
  /\ (status (fst (handle (PUT_tasks_id 1 (Value buy_milk) (Value true))
                     one_task_db)) = 200
      \/ status (fst (handle (PUT_tasks_id 1 (Value buy_milk) (Value true))
                        one_task_db)) = 400
      \/ status (fst (handle (PUT_tasks_id 1 (Value buy_milk) (Value true))
                        one_task_db)) = 404
      \/ status (fst (handle (PUT_tasks_id 1 (Value buy_milk) (Value true))
                        one_task_db)) = 422).
Proof.
  apply (no_request_is_answered_500
           (PUT_tasks_id 1 (Value buy_milk) (Value true)) one_task_db).
  split.
  - unfold sqlite_integer. lia.
  - reflexivity.
Defined.

Lemma update_status_precedence_witness :
  status (fst (handle (PUT_tasks_id 2 (Value buy_milk) Absent)
                 one_task_db)) = 404.
Proof.
  apply (update_status_precedence 2 (Value buy_milk) Absent one_task_db).
  - unfold sqlite_integer. lia.
  - reflexivity.
Defined.

Lemma create_status_witness :
  status (fst (handle (POST_tasks noon_and_two_tenths (Value buy_milk) Null)
                 one_task_db)) = 201
  /\ List.length
       (tasks (snd (handle (POST_tasks noon_and_two_tenths
                              (Value buy_milk) Null) one_task_db))) = 2%nat.
Proof.
  apply (create_status noon_and_two_tenths (Value buy_milk) Null one_task_db).
  reflexivity.
Defined.

(** ** Update and toggle *)

Lemma parse_TaskUpdate_members title completed payload :
  parse_TaskUpdate title completed = Some payload ->
  TaskUpdate.completed payload =
    match completed with Value b => Some b | _ => None end
  /\ TaskUpdate.title payload =
    match title with Value s => Some s | _ => None end
  /\ forall s, TaskUpdate.title payload = Some s ->
               1 <= PyStr.len s <= 255.
Proof.
  unfold parse_TaskUpdate, title_length_ok.
  destruct title as [| |s]; try (intros E; injection E as <-; simpl;
    repeat split; discriminate).
  destruct (1 <=? PyStr.len s) eqn:H1; [|discriminate].
  destruct (PyStr.len s <=? 255) eqn:H2; [|discriminate].
  apply Z.leb_le in H1. apply Z.leb_le in H2.
  simpl. intros E; injection E as <-. simpl.
  split; [reflexivity|]. split; [reflexivity|].
  intros s' E'; injection E' as <-. lia.
Qed.

Lemma update_sets_result payload r :
  fold_left assign (update_sets payload) r =
  Row.mk (Row.id r)
         (match TaskUpdate.title payload with
          | Some v => PyStr.strip v
          | None => Row.title r
          end)
         (match TaskUpdate.completed payload with
          | Some b => if b then 1 else 0
          | None => Row.completed r
          end)
         (Row.created_at r).
Proof.
  destruct payload as [[v|] [b|]], r; reflexivity.
Qed.

(** X4. An accepted update of a task in the table writes the members it
    provides and keeps the others: the answer is 200 with the task under
    its id and [created_at], the trimmed new title or else the old one,
    the new [completed] or else the old one; and that task is what a
    lookup of the id finds afterwards. *)
Theorem update_writes_only_the_provided_members
  task_id title completed payload db r :
  parse_TaskUpdate title completed = Some payload ->
  has_field payload ->
  sql_select_by_id task_id db = Some r ->
  exists t db',
    handle (PUT_tasks_id task_id title completed) db =
      (mkResponse 200 (One t), db')
    /\ Task.id t = task_id
    /\ Task.created_at t = Row.created_at r
    /\ Task.title t =
       match title with
       | Value s => PyStr.strip s
       | _ => Row.title r
       end
    /\ Task.completed t =
       match completed with
       | Value b => b
       | _ => bool_of_int (Row.completed r)
       end
    /\ exists r', sql_select_by_id task_id db' = Some r'
                  /\ row_to_task r' = t.
Proof.
  intros Hp Hf Hsel.
  destruct (parse_TaskUpdate_members _ _ _ Hp) as [Hc [Ht _]].
  pose proof (select_by_id_in _ _ _ Hsel) as [_ Hid].
  exists (row_to_task (fold_left assign (update_sets payload) r)),
         (sql_update (update_sets payload) task_id db).
  split; [now rewrite (handle_PUT _ _ _ _ _ Hp Hf), Hsel|].
  rewrite update_sets_result, Hc, Ht. simpl.
  split; [exact Hid|]. split; [reflexivity|].
  split; [now destruct title|].
  split; [now destruct completed as [| |[|]]|].
  rewrite select_after_update, Hsel. simpl.
  rewrite <- Hid, Z.eqb_refl.
  eexists. split; [reflexivity|].
  now rewrite update_sets_result, Hc, Ht.
Qed.

Lemma update_writes_only_the_provided_members_witness :
  exists t db',
    handle (PUT_tasks_id 1 Null (Value true)) one_task_db =
      (mkResponse 200 (One t), db')
    /\ Task.id t = 1
    /\ Task.created_at t = isoformat noon_and_one_tenth
    /\ Task.title t = buy_milk
    /\ Task.completed t = true
    /\ exists r', sql_select_by_id 1 db' = Some r' /\ row_to_task r' = t.
Proof.
  apply (update_writes_only_the_provided_members 1 Null (Value true)
           (TaskUpdate.mk None (Some true)) one_task_db
           (Row.mk 1 buy_milk 0 (isoformat noon_and_one_tenth))).
  - reflexivity.
  - right. discriminate.
  - reflexivity.
Defined.

Lemma update_twice_row payload r :
  fold_left assign (update_sets payload)
            (fold_left assign (update_sets payload) r) =
  fold_left assign (update_sets payload) r.
Proof.
  rewrite !update_sets_result. simpl.
  now destruct (TaskUpdate.title payload), (TaskUpdate.completed payload).
Qed.

Lemma update_twice_db payload task_id db :
  sql_update (update_sets payload) task_id
             (sql_update (update_sets payload) task_id db) =
  sql_update (update_sets payload) task_id db.
Proof.
  unfold sql_update; simpl. f_equal. rewrite map_map. apply map_ext.
  intros r. destruct (Z.eqb_spec (Row.id r) task_id) as [E|E].
  - rewrite assigns_id. apply Z.eqb_eq in E. rewrite E.
    apply update_twice_row.
  - apply Z.eqb_neq in E. now rewrite E.
Qed.

(** X5. [PUT /tasks/{task_id}] is idempotent: sent again with the same
    body right after, it gets the same answer and leaves the database as
    the first one left it, whether the first succeeded or failed. *)
Theorem update_is_idempotent task_id title completed db :
  handle (PUT_tasks_id task_id title completed)
         (snd (handle (PUT_tasks_id task_id title completed) db)) =
  handle (PUT_tasks_id task_id title completed) db.
Proof.
  destruct (parse_TaskUpdate title completed) as [payload|] eqn:Hp.
  - destruct (payload_cases payload) as [->|Hf].
    + now rewrite !(handle_PUT_no_fields _ _ _ _ Hp).
    + rewrite !(handle_PUT _ _ _ _ _ Hp Hf).
      destruct (sql_select_by_id task_id db) as [r|] eqn:Hsel; simpl.
      * pose proof (select_by_id_in _ _ _ Hsel) as [_ Hid].
        rewrite select_after_update, Hsel. simpl.
        rewrite <- Hid, Z.eqb_refl.
        now rewrite update_twice_row, update_twice_db.
      * now rewrite Hsel.
  - simpl. now rewrite Hp.
Qed.

(** X6. For a task in the table, the toggle is the update that sends only
    [completed], set to the negation of the stored flag: both get the
    same answer and leave the same database. *)
Theorem toggle_is_update_of_negated_flag task_id db r :
  sql_select_by_id task_id db = Some r ->
  handle (PATCH_tasks_id_toggle task_id) db =
  handle (PUT_tasks_id task_id Absent
            (Value (negb (bool_of_int (Row.completed r))))) db.
Proof.
  intros Hsel.
  rewrite handle_PATCH, Hsel.
  rewrite (handle_PUT task_id Absent
             (Value (negb (bool_of_int (Row.completed r))))
             (TaskUpdate.mk None
                (Some (negb (bool_of_int (Row.completed r)))))
             db eq_refl) by (right; discriminate).
  rewrite Hsel. unfold toggled, update_sets. simpl.
  now destruct (bool_of_int (Row.completed r)).
Qed.

Lemma toggle_is_update_of_negated_flag_witness :
  handle (PATCH_tasks_id_toggle 1) one_task_db =
  handle (PUT_tasks_id 1 Absent (Value true)) one_task_db.
Proof.
  apply (toggle_is_update_of_negated_flag 1 one_task_db
           (Row.mk 1 buy_milk 0 (isoformat noon_and_one_tenth))).
  reflexivity.
Defined.

(** ** What is stored *)

Lemma lstrip_split s :
  exists ws, s = ws ++ PyStr.lstrip s /\ forallb PyStr.isspace ws = true.
Proof.
  induction s as [|c t [ws [E Hws]]]; simpl.
  - now exists [].
  - destruct (PyStr.isspace c) eqn:Hc.
    + exists (c :: ws). simpl. rewrite Hc, Hws. split; [now f_equal | reflexivity].
    + now exists [].
Qed.

Lemma lstrip_fixed s :
  PyStr.lstrip s = s <->
  match s with [] => True | c :: _ => PyStr.isspace c = false end.
Proof.
  destruct s as [|c t]; simpl; [tauto|].
  destruct (PyStr.isspace c) eqn:Hc; split; try congruence; try reflexivity.
  intros E. pose proof (lstrip_length t) as H. rewrite E in H. simpl in H. lia.
Qed.

Lemma lstrip_idempotent s : PyStr.lstrip (PyStr.lstrip s) = PyStr.lstrip s.
Proof.
  induction s as [|c t IH]; simpl; [reflexivity|].
  destruct (PyStr.isspace c) eqn:Hc; [exact IH|]. simpl. now rewrite Hc.
Qed.

(** [rstrip] keeps a prefix. *)
Lemma rstrip_prefix s : exists ws, s = PyStr.rstrip s ++ ws.
Proof.
  unfold PyStr.rstrip. destruct (lstrip_split (rev s)) as [ws [E _]].
  exists (rev ws). rewrite <- rev_app_distr, <- E. now rewrite rev_involutive.
Qed.

Lemma rstrip_keeps_clean_head s :
  PyStr.lstrip s = s -> PyStr.lstrip (PyStr.rstrip s) = PyStr.rstrip s.
Proof.
  intros Hs. apply lstrip_fixed. apply lstrip_fixed in Hs.
  destruct (rstrip_prefix s) as [ws E].
  destruct (PyStr.rstrip s) as [|c t]; [exact I|].
  rewrite E in Hs. exact Hs.
Qed.

Lemma rstrip_idempotent s : PyStr.rstrip (PyStr.rstrip s) = PyStr.rstrip s.
Proof.
  unfold PyStr.rstrip. now rewrite rev_involutive, lstrip_idempotent.
Qed.

(** [strip()] of a stripped text changes nothing. *)
Lemma strip_idempotent s : trimmed (PyStr.strip s).
Proof.
  unfold trimmed, PyStr.strip.
  rewrite (rstrip_keeps_clean_head (PyStr.lstrip s) (lstrip_idempotent s)).
  apply rstrip_idempotent.
Qed.

Lemma created_row_ok payload utcnow db title completed :
  parse_TaskCreate title completed = Some payload ->
  stored_row_ok (created_row payload utcnow db).
Proof.
  unfold parse_TaskCreate, title_length_ok.
  destruct title as [| |s]; try discriminate.
  destruct (1 <=? PyStr.len s) eqn:H1; [|discriminate].
  destruct (PyStr.len s <=? 255) eqn:H2; [|discriminate].
  apply Z.leb_le in H2. simpl. intros E; injection E as <-.
  split; [apply strip_idempotent|]. simpl. split.
  - pose proof (strip_len_le s). lia.
  - apply isoformat_length.
Qed.

Lemma updated_row_ok payload r title completed :
  parse_TaskUpdate title completed = Some payload ->
  stored_row_ok r ->
  stored_row_ok (fold_left assign (update_sets payload) r).
Proof.
  intros Hp [Ht [Hl Hc]].
  destruct (parse_TaskUpdate_members _ _ _ Hp) as [_ [_ Hlen]].
  rewrite update_sets_result. unfold stored_row_ok. simpl.
  destruct (TaskUpdate.title payload) as [v|].
  - split; [apply strip_idempotent|]. split; [|exact Hc].
    pose proof (strip_len_le v). specialize (Hlen v eq_refl). lia.
  - now repeat split.
Qed.

Lemma handle_keeps_rows_ok rq db :
  Forall stored_row_ok (tasks db) ->
  Forall stored_row_ok (tasks (snd (handle rq db))).
Proof.
  intros Hok.
  destruct (handle_db rq db)
    as [E|[[utcnow [title [completed [payload [_ [Hp E]]]]]]
       |[[task_id [title [completed [payload [_ [Hp E]]]]]]
       |[[task_id [r [_ E]]]|[task_id [_ E]]]]]]; rewrite E; simpl.
  - exact Hok.
  - apply Forall_app. split; [exact Hok|].
    constructor; [|constructor]. eapply created_row_ok; eassumption.
  - apply Forall_map. eapply Forall_impl; [|exact Hok]. intros x Hx.
    destruct (Row.id x =? task_id); [|exact Hx].
    eapply updated_row_ok; eassumption.
  - apply Forall_map. eapply Forall_impl; [|exact Hok]. intros x Hx.
    destruct (Row.id x =? task_id); [|exact Hx].
    destruct Hx as [Ht [Hl Hc]]. now repeat split.
  - apply Forall_forall. intros x Hx. apply filter_In in Hx.
    rewrite Forall_forall in Hok. now apply Hok.
Qed.

(** X7. Every title in a reachable table is as [strip()] leaves it (no
    whitespace at either end) and at most 255 characters long, and every
    [created_at] is a text of 19 or of 26 characters, as [isoformat()]
    writes it. *)
Theorem stored_rows_are_trimmed_and_bounded db r :
  reachable db -> In r (tasks db) ->
  PyStr.strip (Row.title r) = Row.title r
  /\ PyStr.len (Row.title r) <= 255
  /\ (List.length (Row.created_at r) = 19%nat
      \/ List.length (Row.created_at r) = 26%nat).
Proof.
  intros [rqs ->] Hin.
  assert (H : forall rqs d, Forall stored_row_ok (tasks d) ->
                            Forall stored_row_ok (tasks (run rqs d))).
  { clear. induction rqs as [|rq rest IH]; intros d Hd; simpl; [exact Hd|].
    apply IH. now apply handle_keeps_rows_ok. }
  specialize (H rqs (init_db None) (Forall_nil _)).
  rewrite Forall_forall in H. exact (H r Hin).
Qed.

Lemma stored_rows_are_trimmed_and_bounded_witness :
  PyStr.strip buy_milk = buy_milk
  /\ PyStr.len buy_milk <= 255
  /\ (List.length (isoformat noon_and_one_tenth) = 19%nat
      \/ List.length (isoformat noon_and_one_tenth) = 26%nat).
Proof.
  apply (stored_rows_are_trimmed_and_bounded
           (run [POST_tasks noon_and_one_tenth
                   (Value (PyStr.of_string "  Buy milk ")) Absent]
                (init_db None))
           (Row.mk 1 buy_milk 0 (isoformat noon_and_one_tenth))).
  - exists [POST_tasks noon_and_one_tenth
              (Value (PyStr.of_string "  Buy milk ")) Absent].
    reflexivity.
  - simpl. left. reflexivity.
Defined.

(** ** The id counter *)

Lemma max_rowid_le rows s :
  0 <= s -> Forall (fun i => i <= s) (map Row.id rows) -> max_rowid rows <= s.
Proof.
  intros Hs. induction rows as [|x l IH]; simpl; intros H; [lia|].
  inversion H; subst. specialize (IH H3). lia.
Qed.

Lemma sorted_app_last (l : list Z) n :
  StronglySorted Z.lt l -> Forall (fun i => i < n) l ->
  StronglySorted Z.lt (l ++ [n]).
Proof.
  induction 1 as [|x l Hs IH Hx]; simpl; intros Hn.
  - repeat constructor.
  - inversion Hn; subst. constructor; [now apply IH|].
    apply Forall_app. split; [assumption | now repeat constructor].
Qed.

Lemma sorted_filter (p : Z -> bool) (l : list Z) :
  StronglySorted Z.lt l -> StronglySorted Z.lt (filter p l).
Proof.
  induction 1 as [|x l Hs IH Hx]; simpl; [constructor|].
  destruct (p x); [|exact IH]. constructor; [exact IH|].
  apply Forall_forall. intros y Hy. apply filter_In in Hy.
  rewrite Forall_forall in Hx. now apply Hx.
Qed.

Lemma in_id_order_next db :
  in_id_order db -> next_rowid db = sqlite_sequence db + 1.
Proof.
  intros [_ [Hb H0]]. unfold next_rowid.
  assert (max_rowid (tasks db) <= sqlite_sequence db).
  { apply max_rowid_le; [exact H0|].
    eapply Forall_impl; [|exact Hb]. simpl. intros; lia. }
  lia.
Qed.

Lemma handle_in_id_order rq db :
  in_id_order db ->
  in_id_order (snd (handle rq db))
  /\ sqlite_sequence (snd (handle rq db)) =
     sqlite_sequence db + (if accepted_create rq then 1 else 0).
Proof.
  intros Hj. pose proof (in_id_order_next db Hj) as Hn.
  destruct Hj as [Hs [Hb H0]].
  assert (Hsame : forall d, ids d = ids db ->
                            sqlite_sequence d = sqlite_sequence db ->
                            in_id_order d).
  { intros d E1 E2. unfold in_id_order. now rewrite E1, E2. }
  destruct rq as [| |utcnow title completed|task_id title completed
                  |task_id|task_id]; simpl accepted_create.
  - split; [now apply Hsame | simpl; lia].
  - split; [now apply Hsame | simpl; lia].
  - destruct (parse_TaskCreate title completed) as [payload|] eqn:Hp.
    + rewrite (handle_POST _ _ _ _ _ Hp). simpl. split; [|lia].
      unfold in_id_order, ids. simpl. rewrite map_app. simpl.
      fold (ids db). rewrite Hn. split; [|split; [|lia]].
      * apply sorted_app_last; [exact Hs|].
        eapply Forall_impl; [|exact Hb]. simpl. intros; lia.
      * apply Forall_app. split.
        -- eapply Forall_impl; [|exact Hb]. simpl. intros; lia.
        -- constructor; [lia | constructor].
    + simpl. rewrite Hp. simpl. split; [now apply Hsame | lia].
  - assert (E : snd (handle (PUT_tasks_id task_id title completed) db) = db
                \/ exists sets,
                    snd (handle (PUT_tasks_id task_id title completed) db) =
                    sql_update sets task_id db).
    { apply modifies_effect. right. eauto. }
    destruct E as [E|[sets E]]; rewrite E.
    + split; [now apply Hsame | lia].
    + split; [apply Hsame; [apply update_ids | reflexivity] | simpl; lia].
  - destruct (modifies_effect task_id (PATCH_tasks_id_toggle task_id) db)
      as [E|[sets E]]; [now left| |]; rewrite E.
    + split; [now apply Hsame | lia].
    + split; [apply Hsame; [apply update_ids | reflexivity] | simpl; lia].
  - rewrite handle_DELETE.
    destruct (sql_select_by_id task_id db); cbn [snd].
    + split; [|simpl; lia]. unfold in_id_order. rewrite delete_ids. simpl.
      split; [now apply sorted_filter|]. split; [|exact H0].
      apply Forall_forall. intros i Hi. apply filter_In in Hi.
      rewrite Forall_forall in Hb. now apply Hb.
    + split; [now apply Hsame | lia].
Qed.

Lemma run_in_id_order rqs db :
  in_id_order db ->
  in_id_order (run rqs db)
  /\ sqlite_sequence (run rqs db) =
     sqlite_sequence db + Z.of_nat (List.length (filter accepted_create rqs)).
Proof.
  revert db. induction rqs as [|rq rest IH]; intros db Hj.
  - simpl. split; [exact Hj | lia].
  - change (run (rq :: rest) db) with (run rest (snd (handle rq db))).
    destruct (handle_in_id_order rq db Hj) as [Hj' Hs].
    destruct (IH _ Hj') as [Hj'' Hs']. split; [exact Hj''|].
    rewrite Hs', Hs. cbn [filter].
    destruct (accepted_create rq); cbn [List.length]; lia.
Qed.

(** X8. Ids are handed out as 1, 2, 3, ... without gaps and are never
    handed out twice: after any requests on a fresh table, the counter
    is the number of create requests that passed validation so far, the
    next task gets that number plus one whatever was deleted in between,
    and the table holds its rows in increasing order of id. *)
Theorem ids_count_the_accepted_creates rqs :
  sqlite_sequence (run rqs (init_db None)) =
    Z.of_nat (List.length (filter accepted_create rqs))
  /\ next_rowid (run rqs (init_db None)) =
    Z.of_nat (List.length (filter accepted_create rqs)) + 1
  /\ StronglySorted Z.lt (ids (run rqs (init_db None))).
Proof.
  assert (H0 : in_id_order (init_db None)).
  { repeat split; simpl; try constructor. lia. }
  destruct (run_in_id_order rqs _ H0) as [Hj Hs].
  change (sqlite_sequence (init_db None)) with 0 in Hs.
  rewrite Z.add_0_l in Hs. split; [exact Hs|].
  split; [|now destruct Hj].
  rewrite (in_id_order_next _ Hj). now rewrite Hs.
Qed.

(** ** Create, then delete *)

Lemma accepted_POST utcnow title completed db t db1 :
  handle (POST_tasks utcnow title completed) db =
    (mkResponse 201 (One t), db1) ->
  exists payload,
    parse_TaskCreate title completed = Some payload
    /\ t = row_to_task (created_row payload utcnow db)
    /\ db1 = mkDb (tasks db ++ [created_row payload utcnow db])
                  (next_rowid db).
Proof.
  destruct (parse_TaskCreate title completed) as [payload|] eqn:Hp.
  - rewrite (handle_POST _ _ _ _ _ Hp). intros E. injection E as <- <-.
    now exists payload.
  - simpl. rewrite Hp. discriminate.
Qed.

(** X9. Deleting the task a create request just returned is answered 204
    and gives back the table of before the create, row for row. Only the
    counter has moved: it stays at the deleted id, which is above the
    counter of before, so the id is not handed out again. *)
Theorem create_then_delete_restores_the_table
  utcnow title completed db t db1 :
  handle (POST_tasks utcnow title completed) db =
    (mkResponse 201 (One t), db1) ->
  handle (DELETE_tasks_id (Task.id t)) db1 =
    (mkResponse 204 Empty, mkDb (tasks db) (Task.id t))
  /\ sqlite_sequence db < Task.id t
  /\ Task.id t < next_rowid (mkDb (tasks db) (Task.id t)).
Proof.
  intros H. destruct (accepted_POST _ _ _ _ _ _ H) as [payload [Hp [-> ->]]].
  set (row := created_row payload utcnow db).
  assert (Hfresh : forall r, In r (tasks db) -> Row.id r <> Row.id row).
  { intros r Hr. apply next_rowid_fresh in Hr. simpl. lia. }
  split; [|split].
  - rewrite handle_DELETE. unfold sql_select_by_id. cbn [tasks].
    change (Task.id (row_to_task row)) with (Row.id row).
    rewrite (find_app_fresh _ _ Hfresh).
    unfold sql_delete. cbn [snd tasks sqlite_sequence].
    rewrite filter_app. cbn [filter]. rewrite Z.eqb_refl. cbn [negb].
    rewrite app_nil_r.
    destruct (filter_absent (tasks db) (Row.id row)) as [F _].
    { fold (ids db). apply next_rowid_not_in. }
    now rewrite F.
  - apply next_rowid_above_sequence.
  - apply (next_rowid_above_sequence (mkDb (tasks db) _)).
Qed.

Lemma create_then_delete_restores_the_table_witness :
  handle (DELETE_tasks_id 2)
         (run [POST_tasks noon_and_two_tenths (Value buy_milk) Absent]
              one_task_db) =
    (mkResponse 204 Empty, mkDb (tasks one_task_db) 2)
  /\ sqlite_sequence one_task_db < 2
  /\ 2 < next_rowid (mkDb (tasks one_task_db) 2).
Proof.
  apply (create_then_delete_restores_the_table noon_and_two_tenths
           (Value buy_milk) Absent one_task_db
           (Task.mk 2 buy_milk false (isoformat noon_and_two_tenths))).
  reflexivity.
Defined.

(** ** The order of the listing *)


Lemma ltb_false_trans a b c :
  PyStr.ltb a b = false -> PyStr.ltb b c = false -> PyStr.ltb a c = false.
Proof.
  unfold PyStr.ltb. revert b c.
  induction a as [|x a IH]; intros [|y b] [|z c]; simpl;
    try congruence.
  specialize (IH b c).
  destruct (N.compare_spec x y), (N.compare_spec y z),
    (N.compare_spec x z); subst; try congruence; try lia; auto.
Qed.

Lemma not_before_trans a b c :
  not_before a b -> not_before b c -> not_before a c.
Proof. unfold not_before. apply ltb_false_trans. Qed.

Lemma insert_desc_head x l :
  Forall (not_before x) l -> insert_desc x l = x :: l.
Proof.
  destruct l as [|y l]; simpl; [reflexivity|].
  intros H. inversion H; subst. unfold not_before in *.
  now match goal with E : PyStr.ltb _ _ = false |- _ => rewrite E end.
Qed.

Lemma insert_desc_strongly_sorted x l :
  StronglySorted not_before l -> StronglySorted not_before (insert_desc x l).
Proof.
  induction 1 as [|y l Hs IH Hy]; simpl.
  - repeat constructor.
  - destruct (PyStr.ltb (order_key x) (order_key y)) eqn:E.
    + constructor; [exact IH|].
      apply Forall_forall. intros z Hz.
      apply (Permutation_in _ (Permutation_sym (insert_desc_permutation x l)))
        in Hz.
      destruct Hz as [<-|Hz].
      * unfold not_before. now apply ltb_asym.
      * rewrite Forall_forall in Hy. now apply Hy.
    + constructor; [now constructor|].
      constructor; [exact E|].
      eapply Forall_impl; [|exact Hy]. intros z Hz.
      eapply not_before_trans; [exact E | exact Hz].
Qed.

Lemma sort_rows_strongly_sorted l : StronglySorted not_before (sort_rows l).
Proof.
  induction l as [|x l IH]; simpl; [constructor|].
  now apply insert_desc_strongly_sorted.
Qed.

(** X10. [GET /tasks] is answered 200 and changes nothing; its tasks are
    the stored tasks, each exactly once, and no task comes anywhere
    before a task created in a later second. *)
Theorem listing_is_sorted_by_second db :
  handle GET_tasks db = (mkResponse 200 (Many (listing db)), db)
  /\ Permutation (map row_to_task (tasks db)) (listing db)
  /\ StronglySorted not_before (sql_select_all db).
Proof.
  split; [reflexivity|]. split.
  - apply Permutation_map, select_all_permutation.
  - apply sort_rows_strongly_sorted.
Qed.

(** Taking rows out commutes with the sort: the rows that stay keep their
    order. *)
Lemma insert_desc_filter (p : Row.t -> bool) x l :
  StronglySorted not_before l ->
  filter p (insert_desc x l) =
  if p x then insert_desc x (filter p l) else filter p l.
Proof.
  induction 1 as [|y l Hs IH Hy]; simpl.
  - now destruct (p x).
  - destruct (PyStr.ltb (order_key x) (order_key y)) eqn:E; simpl.
    + rewrite IH. destruct (p y), (p x); simpl; try reflexivity.
      now rewrite E.
    + destruct (p x) eqn:Px; [|reflexivity].
      destruct (p y); simpl; [now rewrite E|].
      symmetry. apply insert_desc_head.
      apply Forall_forall. intros z Hz. apply filter_In in Hz.
      rewrite Forall_forall in Hy.
      eapply not_before_trans; [exact E | now apply Hy].
Qed.

Lemma sort_rows_filter (p : Row.t -> bool) l :
  sort_rows (filter p l) = filter p (sort_rows l).
Proof.
  induction l as [|x l IH]; simpl; [reflexivity|].
  rewrite insert_desc_filter by apply sort_rows_strongly_sorted.
  destruct (p x); simpl; now rewrite IH.
Qed.

(** Rewriting rows without touching [created_at] commutes with the sort. *)
Lemma sort_rows_map (f : Row.t -> Row.t) l :
  (forall r, Row.created_at (f r) = Row.created_at r) ->
  sort_rows (map f l) = map f (sort_rows l).
Proof.
  intros Hf.
  assert (Hk : forall r, order_key (f r) = order_key r).
  { intros r. unfold order_key. now rewrite Hf. }
  assert (Hi : forall x s, insert_desc (f x) (map f s) =
                           map f (insert_desc x s)).
  { intros x s. induction s as [|y s IHs]; simpl; [reflexivity|].
    rewrite !Hk. destruct (PyStr.ltb (order_key x) (order_key y)); simpl;
      [now rewrite IHs | reflexivity]. }
  induction l as [|x l IH]; simpl; [reflexivity|].
  now rewrite IH, Hi.
Qed.

Lemma map_row_to_task_filter task_id rows :
  map row_to_task (filter (fun r => negb (Row.id r =? task_id)) rows) =
  filter (fun t => negb (Task.id t =? task_id)) (map row_to_task rows).
Proof.
  induction rows as [|x l IH]; simpl; [reflexivity|].
  destruct (Row.id x =? task_id); simpl; now rewrite IH.
Qed.

Lemma filter_map_row_to_task (p : Task.t -> bool) rows :
  map row_to_task (filter (fun r => p (row_to_task r)) rows) =
  filter p (map row_to_task rows).
Proof.
  induction rows as [|x l IH]; simpl; [reflexivity|].
  destruct (p (row_to_task x)); simpl; now rewrite IH.
Qed.

Lemma delete_tasks task_id db :
  tasks (snd (handle (DELETE_tasks_id task_id) db)) =
  filter (fun r => negb (Row.id r =? task_id)) (tasks db).
Proof.
  rewrite handle_DELETE.
  destruct (sql_select_by_id task_id db) eqn:Hsel; [reflexivity|].
  apply select_by_id_none in Hsel.
  destruct (filter_absent (tasks db) task_id Hsel) as [F _].
  now rewrite F.
Qed.

(** X11. After [DELETE /tasks/{task_id}] the listing is the listing of
    before without the task of that id: the other tasks are all there,
    in the order they had. *)
Theorem delete_keeps_the_order_of_the_others task_id db :
  listing (snd (handle (DELETE_tasks_id task_id) db)) =
  filter (fun t => negb (Task.id t =? task_id)) (listing db).
Proof.
  unfold listing, sql_select_all. rewrite delete_tasks.
  fold (sort_rows (filter (fun r => negb (Row.id r =? task_id)) (tasks db))).
  fold (sort_rows (tasks db)).
  rewrite sort_rows_filter. apply map_row_to_task_filter.
Qed.

Lemma insert_desc_before x a y c :
  PyStr.ltb (order_key x) (order_key y) = false ->
  insert_desc x (a ++ y :: c) = insert_desc x a ++ y :: c.
Proof.
  intros Hy. induction a as [|z a IH]; simpl.
  - now rewrite Hy.
  - destruct (PyStr.ltb (order_key x) (order_key z)); simpl;
      [now rewrite IH | reflexivity].
Qed.

Lemma insert_desc_after x a c :
  Forall (fun z => PyStr.ltb (order_key x) (order_key z) = true) a ->
  insert_desc x (a ++ c) = a ++ insert_desc x c.
Proof.
  induction 1 as [|z a Hz _ IH]; simpl; [reflexivity|].
  now rewrite Hz, IH.
Qed.

(** Where the sort puts a row appended to the table: after the rows of
    the same or of a later second, before the rows of an earlier one. *)
Lemma sort_rows_append l new :
  sort_rows (l ++ [new]) =
  filter (fun r => negb (PyStr.ltb (order_key r) (order_key new)))
         (sort_rows l)
  ++ new :: filter (fun r => PyStr.ltb (order_key r) (order_key new))
                   (sort_rows l).
Proof.
  induction l as [|x l IH]; simpl; [reflexivity|].
  rewrite IH.
  rewrite !insert_desc_filter by apply sort_rows_strongly_sorted.
  destruct (PyStr.ltb (order_key x) (order_key new)) eqn:E; simpl.
  - rewrite insert_desc_after.
    + simpl. now rewrite E.
    + apply Forall_forall. intros z Hz. apply filter_In in Hz.
      destruct Hz as [_ Hz]. apply negb_true_iff in Hz.
      destruct (PyStr.ltb (order_key x) (order_key z)) eqn:Exz;
        [reflexivity|].
      rewrite (ltb_false_trans _ _ _ Exz Hz) in E. discriminate.
  - now apply insert_desc_before.
Qed.

(** The listing after an accepted create. *)
Lemma listing_after_create utcnow title completed db t db1 :
  handle (POST_tasks utcnow title completed) db =
    (mkResponse 201 (One t), db1) ->
  listing db1 =
  filter (fun u => negb (PyStr.ltb (sql_datetime (Task.created_at u))
                                   (sql_datetime (isoformat utcnow))))
         (listing db)
  ++ t :: filter (fun u => PyStr.ltb (sql_datetime (Task.created_at u))
                                     (sql_datetime (isoformat utcnow)))
                 (listing db).
Proof.
  intros H. destruct (accepted_POST _ _ _ _ _ _ H) as [payload [Hp [-> ->]]].
  unfold listing, sql_select_all. cbn [tasks].
  fold (sort_rows (tasks db ++ [created_row payload utcnow db])).
  fold (sort_rows (tasks db)).
  rewrite sort_rows_append, map_app. cbn [map].
  rewrite <- !filter_map_row_to_task. reflexivity.
Qed.

(** X12. The listing after an accepted create is the listing of before
    with the new task put in one place: after every task created in the
    same or in a later second, before every task created in an earlier
    second. The tasks of before keep their order. *)
Theorem created_task_place_in_the_listing
  utcnow title completed db t db1 :
  handle (POST_tasks utcnow title completed) db =
    (mkResponse 201 (One t), db1) ->
  listing db1 =
  filter (fun u => negb (PyStr.ltb (sql_datetime (Task.created_at u))
                                   (sql_datetime (isoformat utcnow))))
         (listing db)
  ++ t :: filter (fun u => PyStr.ltb (sql_datetime (Task.created_at u))
                                     (sql_datetime (isoformat utcnow)))
                 (listing db).
Proof. apply listing_after_create. Qed.

Lemma created_task_place_in_the_listing_witness :
  listing (run [POST_tasks noon_and_two_tenths (Value buy_milk) Absent]
               one_task_db) =
  filter (fun u => negb (PyStr.ltb (sql_datetime (Task.created_at u))
                                   (sql_datetime (isoformat noon_and_two_tenths))))
         (listing one_task_db)
  ++ Task.mk 2 buy_milk false (isoformat noon_and_two_tenths)
     :: filter (fun u => PyStr.ltb (sql_datetime (Task.created_at u))
                                   (sql_datetime (isoformat noon_and_two_tenths)))
               (listing one_task_db).
Proof.
  apply (created_task_place_in_the_listing noon_and_two_tenths
           (Value buy_milk) Absent one_task_db).
  reflexivity.
Defined.

Lemma filter_all {A} (p : A -> bool) (l : list A) :
  (forall x, In x l -> p x = true) ->
  filter p l = l /\ filter (fun x => negb (p x)) l = [].
Proof.
  induction l as [|x l IH]; simpl; intros H; [now split|].
  rewrite (H x (or_introl eq_refl)). simpl.
  destruct IH as [IH1 IH2]; [intros y Hy; apply H; now right|].
  now rewrite IH1, IH2.
Qed.

(** X13. A task created in a later second than every stored task comes
    first in the listing, followed by the listing of before. *)
Theorem task_of_a_later_second_is_listed_first
  utcnow title completed db t db1 :
  handle (POST_tasks utcnow title completed) db =
    (mkResponse 201 (One t), db1) ->
  (forall r, In r (tasks db) ->
             PyStr.ltb (order_key r) (sql_datetime (isoformat utcnow)) = true) ->
  handle GET_tasks db1 = (mkResponse 200 (Many (t :: listing db)), db1).
Proof.
  intros H Hlater.
  assert (E : listing db1 = t :: listing db).
  { rewrite (listing_after_create _ _ _ _ _ _ H).
    destruct (filter_all
                (fun u => PyStr.ltb (sql_datetime (Task.created_at u))
                                    (sql_datetime (isoformat utcnow)))
                (listing db)) as [F1 F2].
    { intros u Hu. unfold listing in Hu. apply in_map_iff in Hu.
      destruct Hu as [r [<- Hr]]. apply select_all_in in Hr.
      exact (Hlater r Hr). }
    now rewrite F1, F2. }
  rewrite <- E. reflexivity.
Qed.

Lemma task_of_a_later_second_is_listed_first_witness :
  handle GET_tasks
         (run [POST_tasks one_second_after_noon
                 (Value (PyStr.of_string "Buy tea")) Absent] one_task_db) =
  (mkResponse 200
     (Many (Task.mk 2 (PyStr.of_string "Buy tea") false
              (isoformat one_second_after_noon)
            :: listing one_task_db)),
   run [POST_tasks one_second_after_noon
          (Value (PyStr.of_string "Buy tea")) Absent] one_task_db).
Proof.
  apply (task_of_a_later_second_is_listed_first one_second_after_noon
           (Value (PyStr.of_string "Buy tea")) Absent one_task_db).
  - reflexivity.
  - intros r [<-|[]]. reflexivity.
Defined.

(** X14. An update or a toggle leaves the listing in the order it had:
    entry by entry the same [id] and [created_at], and the same task
    altogether unless it is the addressed one. *)
Theorem update_and_toggle_keep_the_listing_order task_id rq db :
  modifies task_id rq ->
  Forall2 (same_place task_id) (listing db) (listing (snd (handle rq db))).
Proof.
  intros Hm.
  assert (Hrefl : forall l, Forall2 (same_place task_id) l l).
  { induction l as [|x l IH]; constructor; [|exact IH].
    repeat split; auto. }
  destruct (modifies_effect task_id rq db Hm) as [E|[sets E]]; rewrite E.
  - apply Hrefl.
  - unfold listing, sql_select_all, sql_update. cbn [tasks].
    fold (sort_rows (tasks db)).
    set (f := fun r => if Row.id r =? task_id
                       then fold_left assign sets r else r).
    fold (sort_rows (map f (tasks db))).
    rewrite sort_rows_map.
    + induction (sort_rows (tasks db)) as [|x l IH]; simpl;
        constructor; [|exact IH].
      unfold f, same_place. simpl.
      destruct (Z.eqb_spec (Row.id x) task_id) as [Ex|Ex].
      * rewrite assigns_id, assigns_created_at. tauto.
      * repeat split; auto.
    + intros r. unfold f.
      destruct (Row.id r =? task_id);
        [apply assigns_created_at | reflexivity].
Qed.

Lemma update_and_toggle_keep_the_listing_order_witness :
  Forall2 (same_place 1) (listing one_task_db)
          (listing (snd (handle (PATCH_tasks_id_toggle 1) one_task_db))).
Proof.
  apply (update_and_toggle_keep_the_listing_order 1
           (PATCH_tasks_id_toggle 1) one_task_db).
  left. reflexivity.
Defined.

(** ** Timestamps and the sort key *)














(** ** One task at a time *)

(** X16. A request touches no task but the one its path names: every row
    whose id is not the id in the path is in the table afterwards exactly
    as it was. [GET /health], [GET /tasks] and [POST /tasks] change no
    stored row at all. *)
Theorem other_rows_are_untouched rq db r :
  In r (tasks db) ->
  path_id rq <> Some (Row.id r) ->
  In r (tasks (snd (handle rq db))).
Proof.
  intros Hin Hp.
  destruct (handle_db rq db)
    as [E|[[utcnow [title [completed [payload [_ [_ E]]]]]]
       |[[task_id [title [completed [payload [-> [_ E]]]]]]
       |[[task_id [r0 [-> E]]]|[task_id [-> E]]]]]]; rewrite E; simpl.
  - exact Hin.
  - apply in_or_app. now left.
  - apply in_map_iff. exists r. split; [|exact Hin].
    destruct (Z.eqb_spec (Row.id r) task_id) as [Ei|Ei]; [|reflexivity].
    exfalso. apply Hp. simpl. now rewrite Ei.
  - apply in_map_iff. exists r. split; [|exact Hin].
    destruct (Z.eqb_spec (Row.id r) task_id) as [Ei|Ei]; [|reflexivity].
    exfalso. apply Hp. simpl. now rewrite Ei.
  - apply filter_In. split; [exact Hin|].
    destruct (Z.eqb_spec (Row.id r) task_id) as [Ei|Ei]; [|reflexivity].
    exfalso. apply Hp. simpl. now rewrite Ei.
Qed.

Lemma other_rows_are_untouched_witness :
  In (Row.mk 1 buy_milk 0 (isoformat noon_and_one_tenth))
     (tasks (snd (handle (DELETE_tasks_id 2)
                    (run [POST_tasks noon_and_two_tenths
                            (Value (PyStr.of_string "Buy tea")) Absent]
                         one_task_db)))).
Proof.
  apply (other_rows_are_untouched (DELETE_tasks_id 2)
           (run [POST_tasks noon_and_two_tenths
                   (Value (PyStr.of_string "Buy tea")) Absent]
                one_task_db)
           (Row.mk 1 buy_milk 0 (isoformat noon_and_one_tenth))).
  - simpl. left. reflexivity.
  - simpl. discriminate.
Defined.
